(** * Coaching Leads API: the crawl-and-ingest pipeline and the lead store

    A shallow embedding of [src/main.py] and [src/schemas.py].

    Text is modelled as [String.string] (8-bit characters); the case and
    white-space operations of Python's [str] act on the ASCII range.
    Python's [int] is [Z]; lengths and counters are [nat].  Exceptions are
    values of [exn]; a call that may raise returns a [result].

    What lies outside the repository enters as data of the environment
    ([Env]): the outcome of each HTTP request, the document produced by
    the HTML parser, the [netloc] component computed by [urlparse], the
    behaviour of the store's regular-expression engine on patterns outside
    the fragment evaluated here, and whether the store rejects a write.
    The HTML parser and [urlparse] are total functions there: the
    exceptions modelled are those of the requests, of the store and of
    the endpoints themselves. *)

From Stdlib Require Import List Bool Arith ZArith NArith QArith Lia Ascii String.
From Stdlib Require Import Sorting.Permutation Sorting.Sorted.
Import ListNotations.

Open Scope string_scope.
Open Scope list_scope.
Open Scope nat_scope.

(* ================================================================== *)
(** ** Python string primitives *)

Module Py.

Definition is_upper (c : ascii) : bool :=
  let n := nat_of_ascii c in (65 <=? n) && (n <=? 90).

Definition is_lower (c : ascii) : bool :=
  let n := nat_of_ascii c in (97 <=? n) && (n <=? 122).

Definition lower_char (c : ascii) : ascii :=
  if is_upper c then ascii_of_nat (nat_of_ascii c + 32) else c.

Definition upper_char (c : ascii) : ascii :=
  if is_lower c then ascii_of_nat (nat_of_ascii c - 32) else c.

(** [str.isspace] on the ASCII range: TAB..CR, FS..US and SPACE. *)
Definition is_space (c : ascii) : bool :=
  let n := nat_of_ascii c in
  ((9 <=? n) && (n <=? 13)) || ((28 <=? n) && (n <=? 32)).

(** [s.lower()] *)
Fixpoint lower (s : string) : string :=
  match s with
  | EmptyString => EmptyString
  | String c s' => String (lower_char c) (lower s')
  end.

(** [s.title()]: a cased character is upper-cased when the previous
    character is not cased and lower-cased otherwise. *)
Fixpoint title_from (prev_cased : bool) (s : string) : string :=
  match s with
  | EmptyString => EmptyString
  | String c s' =>
      if is_lower c then
        String (if prev_cased then c else upper_char c) (title_from true s')
      else if is_upper c then
        String (if prev_cased then lower_char c else c) (title_from true s')
      else String c (title_from false s')
  end.

Definition title (s : string) : string := title_from false s.

Fixpoint lstrip (s : string) : string :=
  match s with
  | EmptyString => EmptyString
  | String c s' => if is_space c then lstrip s' else s
  end.

Fixpoint rstrip (s : string) : string :=
  match s with
  | EmptyString => EmptyString
  | String c s' =>
      match rstrip s' with
      | EmptyString => if is_space c then EmptyString else String c EmptyString
      | r => String c r
      end
  end.

(** [s.strip()] *)
Definition strip (s : string) : string := rstrip (lstrip s).

(** [s[:n]] for a non-negative [n] *)
Fixpoint take (n : nat) (s : string) : string :=
  match n, s with
  | S k, String c s' => String c (take k s')
  | _, _ => EmptyString
  end.

(** [s.startswith(p)] *)
Definition startswith (p s : string) : bool := prefix p s.

(** [sub in s] *)
Fixpoint contains (sub s : string) : bool :=
  prefix sub s ||
  match s with
  | EmptyString => false
  | String _ s' => contains sub s'
  end.

(** [s.replace(old, new)] for a non-empty [old]: the occurrences are
    found left to right and do not overlap.  [skip] counts the characters
    of a matched occurrence still to be dropped. *)
Fixpoint replace_from (old new : string) (skip : nat) (s : string) : string :=
  match s with
  | EmptyString => EmptyString
  | String c s' =>
      match skip with
      | S k => replace_from old new k s'
      | O =>
          if prefix old s
          then (new ++ replace_from old new (String.length old - 1) s')%string
          else String c (replace_from old new 0 s')
      end
  end.

Definition replace (old new s : string) : string := replace_from old new 0 s.

(** [s.split(sep)[0]] for a one-character [sep] *)
Fixpoint split_head (sep : ascii) (s : string) : string :=
  match s with
  | EmptyString => EmptyString
  | String c s' => if Ascii.eqb c sep then EmptyString else String c (split_head sep s')
  end.

(** Truthiness of a string. *)
Definition truthy (s : string) : bool :=
  match s with EmptyString => false | _ => true end.

(** [o or d] where [o] is [None] or a string. *)
Definition or_else (o : option string) (d : string) : string :=
  match o with
  | Some s => if truthy s then s else d
  | None => d
  end.

(** Truthiness of an optional string ([None] and [''] are false). *)
Definition truthy_opt (o : option string) : bool :=
  match o with Some s => truthy s | None => false end.

Definition hex_digit (n : nat) : ascii :=
  if n <? 10 then ascii_of_nat (48 + n) else ascii_of_nat (55 + n).

Definition is_alnum (c : ascii) : bool :=
  let n := nat_of_ascii c in
  is_upper c || is_lower c || ((48 <=? n) && (n <=? 57)).

(** [urllib.parse.quote_plus]: letters, digits and [_.-~] are kept, a
    space becomes [+], every other byte becomes [%XX]. *)
Fixpoint quote_plus (s : string) : string :=
  match s with
  | EmptyString => EmptyString
  | String c s' =>
      let n := nat_of_ascii c in
      if is_alnum c || Ascii.eqb c "_" || Ascii.eqb c "." || Ascii.eqb c "-" || Ascii.eqb c "~"
      then String c (quote_plus s')
      else if Ascii.eqb c " " then String "+" (quote_plus s')
      else String "%" (String (hex_digit (n / 16)) (String (hex_digit (n mod 16)) (quote_plus s')))
  end.

End Py.

(* ================================================================== *)
(** ** Exceptions *)

Inductive exn : Type :=
| HTTPException (status_code : Z) (detail : string)
| RequestValidationError (field : string)
| OperationFailure (msg : string)
| TypeError (msg : string).

Inductive result (A : Type) : Type :=
| Return (a : A)
| Raise (e : exn).

Arguments Return {A} a.
Arguments Raise {A} e.

Definition bind {A B : Type} (r : result A) (k : A -> result B) : result B :=
  match r with
  | Return a => k a
  | Raise e => Raise e
  end.

Notation "x <- r ;; k" := (bind r (fun x => k))
  (at level 61, r at next level, right associativity).

(* ================================================================== *)
(** ** The store's regular expressions

    [find_one] is given [{"$regex": p, "$options": "i"}].  The engine
    (PCRE) is evaluated here on the patterns [^body$] whose body is a
    sequence of atoms, each an ordinary character or [.], optionally
    followed by one of [*], [+], [?].  A pattern with an opening
    parenthesis and neither a closing one, a backslash nor a bracket is
    rejected by the engine.  Every other pattern is left to the
    environment. *)

Module Regex.

Inductive atom : Type := ALit (c : ascii) | AAny.
Inductive quant : Type := QOne | QOpt | QStar | QPlus.
Definition item : Type := (atom * quant)%type.

Definition quant_of (c : ascii) : option quant :=
  if Ascii.eqb c "*" then Some QStar
  else if Ascii.eqb c "+" then Some QPlus
  else if Ascii.eqb c "?" then Some QOpt
  else None.

Definition is_quant (c : ascii) : bool :=
  match quant_of c with Some _ => true | None => false end.

(** Characters with a syntactic role other than [.] and the quantifiers. *)
Definition is_special (c : ascii) : bool :=
  Ascii.eqb c "\" || Ascii.eqb c "^" || Ascii.eqb c "$" || Ascii.eqb c "|"
  || Ascii.eqb c "(" || Ascii.eqb c ")" || Ascii.eqb c "[" || Ascii.eqb c "]"
  || Ascii.eqb c "{" || Ascii.eqb c "}".

Definition atom_of (c : ascii) : atom :=
  if Ascii.eqb c "." then AAny else ALit c.

Fixpoint parse_items (s : string) : option (list item) :=
  match s with
  | EmptyString => Some []
  | String c rest =>
      if is_special c || is_quant c then None
      else
        match rest with
        | EmptyString => Some [(atom_of c, QOne)]
        | String q rest' =>
            match quant_of q with
            | Some k => option_map (cons (atom_of c, k)) (parse_items rest')
            | None => option_map (cons (atom_of c, QOne)) (parse_items rest)
            end
        end
  end.

(** Removes a final character [last]; [None] when the string does not end with it. *)
Fixpoint chop (last : ascii) (s : string) : option string :=
  match s with
  | EmptyString => None
  | String c EmptyString => if Ascii.eqb c last then Some EmptyString else None
  | String c s' => option_map (String c) (chop last s')
  end.

(** The body of a pattern of the shape [^body$]. *)
Definition anchored_body (p : string) : option string :=
  match p with
  | String c r => if Ascii.eqb c "^" then chop "$" r else None
  | EmptyString => None
  end.

Definition newline : ascii := ascii_of_nat 10.

(** One character against one atom, caseless. *)
Definition atom_ok (a : atom) (d : ascii) : bool :=
  match a with
  | ALit c => Ascii.eqb (Py.lower_char c) (Py.lower_char d)
  | AAny => negb (Ascii.eqb d newline)
  end.

(** The whole of [s] is matched by the items. *)
Fixpoint match_items (items : list item) : string -> bool :=
  match items with
  | [] => fun s => negb (Py.truthy s)
  | (a, q) :: rest =>
      let next := match_items rest in
      let one := fun (k : string -> bool) (s : string) =>
        match s with
        | EmptyString => false
        | String d s' => atom_ok a d && k s'
        end in
      let star := fix star (s : string) : bool :=
        next s ||
        match s with
        | EmptyString => false
        | String d s' => atom_ok a d && star s'
        end in
      match q with
      | QOne => one next
      | QOpt => fun s => next s || one next s
      | QStar => star
      | QPlus => one star
      end
  end.

(** [$] holds at the end of the subject and before a final newline. *)
Definition search_anchored (items : list item) (s : string) : bool :=
  match_items items s ||
  match chop newline s with
  | Some s' => match_items items s'
  | None => false
  end.

Definition has_char (c : ascii) (s : string) : bool :=
  Py.contains (String c EmptyString) s.

Definition missing_close_paren (p : string) : bool :=
  has_char "(" p && negb (has_char ")" p) && negb (has_char "\" p) && negb (has_char "[" p).

(** Compiling a pattern with option [i]: the engine raises on an invalid
    pattern, otherwise yields the search predicate. *)
Definition compile (other : string -> result (string -> bool)) (p : string)
  : result (string -> bool) :=
  if missing_close_paren p
  then Raise (OperationFailure "Regular expression is invalid: missing closing parenthesis")
  else
    match anchored_body p with
    | Some body =>
        match parse_items body with
        | Some items => Return (search_anchored items)
        | None => other p
        end
    | None => other p
    end.

End Regex.

(* ================================================================== *)
(** ** Data model *)

(** The record built by the page extractor ([info] in
    [_extract_basic_page_info]). *)
Module Info.
Record t : Type := mk {
  name : option string;
  address : option string;
  phone : option string;
  website : option string;
  google_maps_url : option string;
  description : option string
}.

Definition empty : t := mk None None None None None None.

Definition set_name (v : option string) (i : t) : t :=
  mk v (address i) (phone i) (website i) (google_maps_url i) (description i).
Definition set_phone (v : option string) (i : t) : t :=
  mk (name i) (address i) v (website i) (google_maps_url i) (description i).
Definition set_website (v : option string) (i : t) : t :=
  mk (name i) (address i) (phone i) v (google_maps_url i) (description i).
Definition set_google_maps_url (v : option string) (i : t) : t :=
  mk (name i) (address i) (phone i) (website i) v (description i).
Definition set_description (v : option string) (i : t) : t :=
  mk (name i) (address i) (phone i) (website i) (google_maps_url i) v.
End Info.

(** [schemas.Location]; the coordinates are stored, never computed with. *)
Record Location : Type := { lat : option Q; lng : option Q }.

(** A document of the [coaching] collection: the fields of
    [schemas.Coaching].  The time stamps are not modelled. *)
Module Coaching.
Record t : Type := mk {
  name : string;
  city : string;
  exams : list string;
  size : option Z;
  address : option string;
  phone : option string;
  website : option string;
  google_maps_url : option string;
  images : list string;
  location : option Location;
  description : option string;
  status : string
}.

Definition set_status (v : string) (d : t) : t :=
  mk (name d) (city d) (exams d) (size d) (address d) (phone d) (website d)
     (google_maps_url d) (images d) (location d) (description d) v.
End Coaching.

(** The [coaching] collection in insertion order, each document under its
    [_id].  An [ObjectId] is the number its 24 hexadecimal digits denote. *)
Definition ObjectId : Type := N.
Definition Collection : Type := list (ObjectId * Coaching.t).

Definition docs (c : Collection) : list Coaching.t := map snd c.

(** The store assigns the identifier; nothing is ever deleted, so the
    number of documents is fresh. *)
Definition new_id (c : Collection) : ObjectId := N.of_nat (List.length c).

Definition insert_one (c : Collection) (d : Coaching.t) : Collection :=
  c ++ [(new_id c, d)].

(** An element of the parsed page, in document order: its name, its
    attributes, the value of its [class] attribute (a list) and its
    [.string]. *)
Module Tag.
Record t : Type := mk {
  name : string;
  attrs : list (string * string);
  classes : list string;
  string_ : option string
}.

(** [tag.get(k)] *)
Fixpoint lookup (k : string) (l : list (string * string)) : option string :=
  match l with
  | [] => None
  | (k', v) :: rest => if String.eqb k' k then Some v else lookup k rest
  end.

Definition get (tg : t) (k : string) : option string := lookup k (attrs tg).

Definition attr_is (tg : t) (k v : string) : bool :=
  match get tg k with
  | Some v' => String.eqb v' v
  | None => false
  end.
End Tag.

Definition Soup : Type := list Tag.t.

Definition mem (x : string) (l : list string) : bool :=
  if in_dec string_dec x l then true else false.

(* ================================================================== *)
(** ** The environment *)

Inductive http_outcome : Type :=
| ConnectionError
| Response (status_code : Z) (text : string).

Record Env : Type := {
  (** [requests.get(url, ...)]: raises, or answers with a status and a body *)
  requests_get : string -> http_outcome;
  (** [BeautifulSoup(text, 'html.parser')] *)
  parse_html : string -> Soup;
  (** [urlparse(url).netloc] *)
  netloc : string -> string;
  (** the regular-expression engine outside the evaluated fragment *)
  regex_other : string -> result (string -> bool);
  (** [insert_one] raises on this document *)
  insert_rejected : Coaching.t -> bool
}.

(** [r.raise_for_status()] raises on a 4xx or 5xx status. *)
Definition status_is_error (code : Z) : bool :=
  ((400 <=? code) && (code <? 600))%Z.

(* ================================================================== *)
(** ** Search provider: [_ddg_search_urls] *)

Section SearchProvider.

Variable env : Env.

(** [soup.select('a.result__a')] *)
Definition select_result_a (soup : Soup) : list Tag.t :=
  filter (fun tg => String.eqb (Tag.name tg) "a" && mem "result__a" (Tag.classes tg)) soup.

(** [soup.find_all('a')] *)
Definition find_all_a (soup : Soup) : list Tag.t :=
  filter (fun tg => String.eqb (Tag.name tg) "a") soup.

(** [if href and href.startswith('http')] *)
Definition is_http_href (href : option string) : bool :=
  match href with
  | Some h => Py.truthy h && Py.startswith "http" h
  | None => false
  end.

(** The loop over the anchors: append the accepted [href], leave the
    loop once [len(links) >= limit]. *)
Fixpoint collect_links (limit : Z) (links : list string) (anchors : list Tag.t)
  : list string :=
  match anchors with
  | [] => links
  | a :: rest =>
      let href := Tag.get a "href" in
      let links' :=
        match href with
        | Some h => if is_http_href href then links ++ [h] else links
        | None => links
        end in
      if (limit <=? Z.of_nat (List.length links'))%Z then links'
      else collect_links limit links' rest
  end.

(** The loop over [links]: keep a link whose domain was not seen, leave
    the loop once [len(uniq) >= limit]. *)
Fixpoint dedup_domains (limit : Z) (seen uniq links : list string) : list string :=
  match links with
  | [] => uniq
  | l :: rest =>
      let dom := netloc env l in
      let fresh := negb (mem dom seen) in
      let seen' := if fresh then dom :: seen else seen in
      let uniq' := if fresh then uniq ++ [l] else uniq in
      if (limit <=? Z.of_nat (List.length uniq'))%Z then uniq'
      else dedup_domains limit seen' uniq' rest
  end.

(** Lines 194-209: the links of the result page. *)
Definition page_links (soup : Soup) (limit : Z) : list string :=
  let links := collect_links limit [] (select_result_a soup) in
  match links with
  | [] => collect_links limit [] (find_all_a soup)
  | _ => links
  end.

(** Lines 194-220: from the parsed result page to the returned list. *)
Definition search_results (soup : Soup) (limit : Z) : list string :=
  dedup_domains limit [] [] (page_links soup limit).

Definition search_url (query : string) : string :=
  ("https://duckduckgo.com/html/?q=" ++ Py.quote_plus query)%string.

Definition _ddg_search_urls (query : string) (limit : Z) : list string :=
  match requests_get env (search_url query) with
  | ConnectionError => []
  | Response code text =>
      if status_is_error code then []
      else search_results (parse_html env text) limit
  end.

End SearchProvider.

(* ================================================================== *)
(** ** Page extractor: [_extract_basic_page_info] *)

Section PageExtractor.

Variable env : Env.

(** [soup.find(name, attrs={k: v})] *)
Definition find_tag (tag_name k v : string) (soup : Soup) : option Tag.t :=
  find (fun tg => String.eqb (Tag.name tg) tag_name && Tag.attr_is tg k v) soup.

(** [soup.title] *)
Definition soup_title (soup : Soup) : option Tag.t :=
  find (fun tg => String.eqb (Tag.name tg) "title") soup.

(** [soup.find('a', href=lambda h: h and h.startswith('tel:'))] *)
Definition find_tel (soup : Soup) : option Tag.t :=
  find (fun tg => String.eqb (Tag.name tg) "a" &&
                  match Tag.get tg "href" with
                  | Some h => Py.truthy h && Py.startswith "tel:" h
                  | None => false
                  end) soup.

(** [a or b] on two optional tags (a tag is always true). *)
Definition or_tag (a b : option Tag.t) : option Tag.t :=
  match a with
  | Some tg => Some tg
  | None => b
  end.

(** [soup.title.string.strip() if soup.title and soup.title.string else None] *)
Definition page_title (soup : Soup) : option string :=
  match soup_title soup with
  | Some tg =>
      match Tag.string_ tg with
      | Some s => if Py.truthy s then Some (Py.strip s) else None
      | None => None
      end
  | None => None
  end.

(** [tag and tag.get('content')]: the content when present and not empty. *)
Definition content_of (tg : option Tag.t) : option string :=
  match tg with
  | Some tg' =>
      match Tag.get tg' "content" with
      | Some c => if Py.truthy c then Some c else None
      | None => None
      end
  | None => None
  end.

(** The body of the [try] block once the page has been fetched and parsed. *)
Definition fill_from_soup (soup : Soup) (info : Info.t) : Info.t :=
  let info :=
    match page_title soup with
    | Some title => if Py.truthy title then Info.set_name (Some (Py.take 120 title)) info else info
    | None => info
    end in
  let desc := or_tag (find_tag "meta" "name" "description" soup)
                     (find_tag "meta" "property" "og:description" soup) in
  let info :=
    match content_of desc with
    | Some c => Info.set_description (Some (Py.take 300 c)) info
    | None => info
    end in
  let og_title := find_tag "meta" "property" "og:title" soup in
  let info :=
    match content_of og_title with
    | Some c => Info.set_name (Some (Py.take 120 c)) info
    | None => info
    end in
  let tel := find_tel soup in
  match tel with
  | Some tg =>
      match Tag.get tg "href" with
      | Some h => Info.set_phone (Some (Py.strip (Py.replace "tel:" "" h))) info
      | None => info
      end
  | None => info
  end.

(** The fields set before the request (lines 224-227). *)
Definition info_before_fetch (link : string) : Info.t :=
  let info := Info.empty in
  let info := Info.set_website (if negb (Py.contains "google." link) then Some link else None) info in
  if Py.contains "google.com/maps" link || Py.contains "goo.gl/maps" link
  then Info.set_google_maps_url (Some link) info
  else info.

Definition _extract_basic_page_info (link : string) : Info.t :=
  let info := info_before_fetch link in
  match requests_get env link with
  | ConnectionError => info
  | Response _ html => fill_from_soup (parse_html env html) info
  end.

End PageExtractor.

(* ================================================================== *)
(** ** Query builder and candidate collection (lines 261-280) *)

Module CrawlRequest.
Record t : Type := mk {
  city : string;
  exams : option (list string);
  limit : Z
}.
End CrawlRequest.

(** [base_terms] after the loop over [exams]. *)
Definition build_queries (city : string) (exams : list string) : list string :=
  let base_terms :=
    [ ("coaching institute " ++ city)%string;
      ("tuition classes " ++ city)%string;
      ("test prep coaching " ++ city)%string ] in
  fold_left
    (fun terms ex =>
       (terms ++ [ (ex ++ " coaching " ++ city)%string ])
              ++ [ (ex ++ " classes " ++ city)%string ])
    exams base_terms.

(** [max(5, payload.limit // 2)] *)
Definition per_query_limit (limit : Z) : Z := Z.max 5 (limit / 2).

Section Collect.

(** The search provider as the coordinator sees it. *)
Variable search : string -> Z -> list string.

(** The inner loop: append an unseen URL, leave once
    [len(collected) >= limit]. *)
Fixpoint merge_urls (limit : Z) (collected urls : list string) : list string :=
  match urls with
  | [] => collected
  | u :: rest =>
      let collected' := if mem u collected then collected else collected ++ [u] in
      if (limit <=? Z.of_nat (List.length collected'))%Z then collected'
      else merge_urls limit collected' rest
  end.

(** The outer loop.  [issued] records the calls made to the search
    provider, in order, each with its per-query limit. *)
Fixpoint collect_candidates (limit : Z) (collected : list string)
    (issued : list (string * Z)) (queries : list string)
  : list string * list (string * Z) :=
  match queries with
  | [] => (collected, issued)
  | q :: rest =>
      let urls := search q (per_query_limit limit) in
      let issued' := issued ++ [(q, per_query_limit limit)] in
      let collected' := merge_urls limit collected urls in
      if (limit <=? Z.of_nat (List.length collected'))%Z then (collected', issued')
      else collect_candidates limit collected' issued' rest
  end.

(** [for q in base_terms[:5]: ...] starting from [collected = []]. *)
Definition collect (city : string) (exams : list string) (limit : Z)
  : list string * list (string * Z) :=
  collect_candidates limit [] [] (firstn 5 (build_queries city exams)).

End Collect.

(* ================================================================== *)
(** ** Coordinator: [crawl_and_ingest] (lines 282-319) *)

Module CrawlResponse.
Record t : Type := mk { ok : bool; created : nat; scanned : nat }.
End CrawlResponse.

(** [urlparse(link).netloc.replace('www.', '').split('.')[0].title() + " Coaching"] *)
Definition synth_name (dom : string) : string :=
  (Py.title (Py.split_head "." (Py.replace "www." "" dom)) ++ " Coaching")%string.

Section Coordinator.

Variable env : Env.

(** [db["coaching"].find_one({"website": w})] *)
Definition find_one_by_website (c : Collection) (w : string) : option Coaching.t :=
  find (fun d => match Coaching.website d with
                 | Some w' => String.eqb w' w
                 | None => false
                 end) (docs c).

(** [db["coaching"].find_one] with the two caseless regular expressions
    [^name$] and [^city$]. *)
Definition find_one_by_name_city (c : Collection) (name city : string)
  : result (option Coaching.t) :=
  rn <- Regex.compile (regex_other env) ("^" ++ name ++ "$")%string ;;
  rc <- Regex.compile (regex_other env) ("^" ++ city ++ "$")%string ;;
  Return (find (fun d => rn (Coaching.name d) && rc (Coaching.city d)) (docs c)).

(** The draft lead (lines 291-304). *)
Definition draft (city : string) (exams : list string) (link : string) (info : Info.t)
  : Coaching.t :=
  Coaching.mk (Py.or_else (Info.name info) (synth_name (netloc env link)))
         city exams None
         (Info.address info) (Info.phone info) (Info.website info)
         (Info.google_maps_url info)
         [] None (Info.description info) "neutral".

(** Lines 305-310: [exists] after the two look-ups. *)
Definition lookup_existing (c : Collection) (doc : Coaching.t) (city : string)
  : result (option Coaching.t) :=
  let by_site :=
    match Coaching.website doc with
    | Some w => if Py.truthy w then find_one_by_website c w else None
    | None => None
    end in
  match by_site with
  | Some d => Return (Some d)
  | None => find_one_by_name_city c (Coaching.name doc) city
  end.

(** [(info.get("name") or link)[:120].lower()] *)
Definition dedup_key (info : Info.t) (link : string) : string :=
  Py.lower (Py.take 120 (Py.or_else (Info.name info) link)).

(** The loop over [collected].  The collection is mutated in place, so
    the documents inserted before an exception stay in it. *)
Fixpoint ingest (city : string) (exams : list string) (links : list string)
    (c : Collection) (created : nat) (seen_keys : list string)
  : Collection * result nat :=
  match links with
  | [] => (c, Return created)
  | link :: rest =>
      let info := _extract_basic_page_info env link in
      let key := dedup_key info link in
      if mem key seen_keys then ingest city exams rest c created seen_keys
      else
        let seen_keys := key :: seen_keys in
        let doc := draft city exams link info in
        match lookup_existing c doc city with
        | Raise e => (c, Raise e)
        | Return (Some _) => ingest city exams rest c created seen_keys
        | Return None =>
            if insert_rejected env doc
            then ingest city exams rest c created seen_keys
            else ingest city exams rest (insert_one c doc) (S created) seen_keys
        end
  end.

(** [db] is [None] when the store is not available. *)
Definition crawl_and_ingest (db : option Collection) (payload : CrawlRequest.t)
  : option Collection * result CrawlResponse.t :=
  match db with
  | None => (None, Raise (HTTPException 500 "Database not available"))
  | Some c =>
      let city := Py.strip (CrawlRequest.city payload) in
      if negb (Py.truthy city)
      then (Some c, Raise (HTTPException 400 "City is required"))
      else
        let exams := match CrawlRequest.exams payload with
                     | Some l => l
                     | None => []
                     end in
        let collected :=
          fst (collect (_ddg_search_urls env) city exams (CrawlRequest.limit payload)) in
        let '(c', r) := ingest city exams collected c 0 [] in
        (Some c',
         created <- r ;;
         Return (CrawlResponse.mk true created (List.length collected)))
  end.

End Coordinator.

(* ================================================================== *)
(** ** Lead endpoints: [create_coaching], [update_status] *)

(** The JSON body of [POST /coaching] before validation. *)
Module CoachingBody.
Record t : Type := mk {
  name : option string;
  city : option string;
  exams : option (list string);
  size : option Z;
  address : option string;
  phone : option string;
  website : option string;
  google_maps_url : option string;
  images : option (list string);
  location : option Location;
  description : option string;
  status : option string
}.
End CoachingBody.

Definition default {A : Type} (d : A) (o : option A) : A :=
  match o with Some a => a | None => d end.

(** Validation by [schemas.Coaching]: [name] and [city] are required,
    [size] is [ge=0], [status] is a [str] with default ["neutral"]. *)
Definition validate_Coaching (b : CoachingBody.t) : result Coaching.t :=
  match CoachingBody.name b, CoachingBody.city b with
  | Some n, Some c =>
      if match CoachingBody.size b with Some k => (k <? 0)%Z | None => false end
      then Raise (RequestValidationError "size")
      else Return (Coaching.mk n c (default [] (CoachingBody.exams b)) (CoachingBody.size b)
                          (CoachingBody.address b) (CoachingBody.phone b)
                          (CoachingBody.website b) (CoachingBody.google_maps_url b)
                          (default [] (CoachingBody.images b)) (CoachingBody.location b)
                          (CoachingBody.description b)
                          (default "neutral" (CoachingBody.status b)))
  | None, _ => Raise (RequestValidationError "name")
  | _, None => Raise (RequestValidationError "city")
  end.

(** Modelled from the spec: [create_document] of [database.py], which is
    not among the sources; the store operation is
    insert(record) -> id. *)
Definition create_document (c : Collection) (d : Coaching.t) : Collection * ObjectId :=
  (insert_one c d, new_id c).

(** [create_coaching(item)] on a validated [item]. *)
Definition create_coaching (c : Collection) (item : Coaching.t) : Collection * ObjectId :=
  create_document c item.

(** [POST /coaching]: validation of the body, then [create_coaching]. *)
Definition post_coaching (c : Collection) (body : CoachingBody.t)
  : Collection * result ObjectId :=
  match validate_Coaching body with
  | Return item => let '(c', i) := create_coaching c item in (c', Return i)
  | Raise e => (c, Raise e)
  end.

Definition hex_val (ch : ascii) : option N :=
  let n := nat_of_ascii ch in
  if (48 <=? n) && (n <=? 57) then Some (N.of_nat (n - 48))
  else if (97 <=? n) && (n <=? 102) then Some (N.of_nat (n - 87))
  else if (65 <=? n) && (n <=? 70) then Some (N.of_nat (n - 55))
  else None.

Fixpoint parse_hex (acc : N) (s : string) : option N :=
  match s with
  | EmptyString => Some acc
  | String ch s' =>
      match hex_val ch with
      | Some v => parse_hex (16 * acc + v)%N s'
      | None => None
      end
  end.

(** [ObjectId(id_str)] accepts 24 hexadecimal digits. *)
Definition to_object_id (id_str : string) : result ObjectId :=
  if String.length id_str =? 24 then
    match parse_hex 0%N id_str with
    | Some n => Return n
    | None => Raise (HTTPException 400 "Invalid ID")
    end
  else Raise (HTTPException 400 "Invalid ID").

(** [update_one({"_id": oid}, {"$set": {"status": v, ...}})] *)
Fixpoint update_one_status (oid : ObjectId) (v : string) (c : Collection) : Collection :=
  match c with
  | [] => []
  | (i, d) :: rest =>
      if N.eqb i oid then (i, Coaching.set_status v d) :: rest
      else (i, d) :: update_one_status oid v rest
  end.

Definition update_status (db : option Collection) (coaching_id : string) (status : string)
  : option Collection * result bool :=
  if negb (mem status ["liked"; "disliked"; "neutral"])
  then (db, Raise (HTTPException 400 "Invalid status"))
  else
    match to_object_id coaching_id with
    | Raise e => (db, Raise e)
    | Return oid =>
        match db with
        | None => (None, Raise (TypeError "'NoneType' object is not subscriptable"))
        | Some c => (Some (update_one_status oid status c), Return true)
        end
    end.

(* ================================================================== *)
(** ** Lead endpoints: [get_coaching], [coaching_agent] *)

(** [str(oid)]: the 24 lower-case hexadecimal digits of an [ObjectId]. *)
Definition hex_char (d : N) : ascii :=
  if (d <? 10)%N then ascii_of_N (48 + d) else ascii_of_N (87 + d).

Fixpoint hex_digits (k : nat) (n : N) : string :=
  match k with
  | O => EmptyString
  | S k' => (hex_digits k' (n / 16) ++ String (hex_char (n mod 16)) EmptyString)%string
  end.

Definition str_ObjectId (oid : ObjectId) : string := hex_digits 24 oid.

(** [db["coaching"].find_one({"_id": oid})] *)
Definition find_one_by_id (c : Collection) (oid : ObjectId) : option (ObjectId * Coaching.t) :=
  find (fun p => N.eqb (fst p) oid) c.

(** [get_coaching]: the document with ["_id"] replaced by ["id"], its text. *)
Definition get_coaching (db : option Collection) (coaching_id : string)
  : result (string * Coaching.t) :=
  oid <- to_object_id coaching_id ;;
  match db with
  | None => Raise (TypeError "'NoneType' object is not subscriptable")
  | Some c =>
      match find_one_by_id c oid with
      | None => Raise (HTTPException 404 "Not found")
      | Some (i, d) => Return (str_ObjectId i, d)
      end
  end.

(** [sep.join(l)] *)
Fixpoint join (sep : string) (l : list string) : string :=
  match l with
  | [] => EmptyString
  | x :: rest =>
      match rest with
      | [] => x
      | _ => (x ++ sep ++ join sep rest)%string
      end
  end.

Module AgentResponse.
Record t : Type := mk { answer : string; suggestions : list string }.
End AgentResponse.

(** [", ".join(coaching.get("exams", [])[:5]) or "multiple exams"] *)
Definition agent_exams (d : Coaching.t) : string :=
  let joined := join ", " (firstn 5 (Coaching.exams d)) in
  if Py.truthy joined then joined else "multiple exams".

(** [coaching_agent]: [db["coaching"]] is evaluated before the identifier
    is parsed. *)
Definition coaching_agent (db : option Collection) (coaching_id query : string)
  : result AgentResponse.t :=
  match db with
  | None => Raise (TypeError "'NoneType' object is not subscriptable")
  | Some c =>
      oid <- to_object_id coaching_id ;;
      match find_one_by_id c oid with
      | None => Raise (HTTPException 404 "Coaching not found")
      | Some (_, d) =>
          let name := Coaching.name d in
          let city := Coaching.city d in
          let exams := agent_exams d in
          Return (AgentResponse.mk
            ("You asked: '" ++ query ++ "'. For " ++ name ++ " in " ++ city
               ++ ", consider: ")%string
            [ ("Research recent reviews of " ++ name ++ " on Google and Reddit.")%string;
              ("Check LinkedIn for alumni or staff from " ++ name ++ " in " ++ city
                 ++ ".")%string;
              ("Look for photo galleries and infrastructure details if targeting "
                 ++ exams ++ ".")%string;
              "Draft an email introducing your services with 2-3 tailored benefits.";
              "Schedule a follow-up reminder in 3 days if no response." ])
      end
  end.

(* ================================================================== *)
(** ** Notes endpoints: [add_note], [list_notes] *)

(** [schemas.Note] *)
Module Note.
Record t : Type := mk {
  coaching_id : string;
  title : option string;
  content : option string;
  stage : option string;
  next_action : option string;
  next_action_date : option string
}.

Definition set_coaching_id (v : string) (n : t) : t :=
  mk v (title n) (content n) (stage n) (next_action n) (next_action_date n).
End Note.

(** A document of the [note] collection: the note under its [_id], with
    the creation time the store may have recorded (a number). *)
Module StoredNote.
Record t : Type := mk {
  _id : ObjectId;
  created_at : option Z;
  note : Note.t
}.
End StoredNote.

Definition NoteCollection : Type := list StoredNote.t.

(** Modelled from the spec: [create_document] of [database.py] on the
    [note] collection; insert(record) -> id, the record keeping its
    creation time [now]. *)
Definition create_note_document (c : NoteCollection) (now : Z) (n : Note.t)
  : NoteCollection * ObjectId :=
  let i := N.of_nat (List.length c) in
  (c ++ [StoredNote.mk i (Some now) n], i).

(** [add_note]: the identifier of the path replaces that of the body. *)
Definition add_note (c : NoteCollection) (now : Z) (coaching_id : string)
    (payload : Note.t) : NoteCollection * ObjectId :=
  let payload :=
    if negb (String.eqb (Note.coaching_id payload) coaching_id)
    then Note.set_coaching_id coaching_id payload
    else payload in
  create_note_document c now payload.

(** Modelled from the spec: [get_documents("note", {"coaching_id": id})]
    of [database.py]; the documents equal on that field, in store order. *)
Definition get_note_documents (c : NoteCollection) (coaching_id : string)
  : NoteCollection :=
  filter (fun s => String.eqb (Note.coaching_id (StoredNote.note s)) coaching_id) c.

(** An item of the answer: ["_id"] replaced by ["id"], its text. *)
Module NoteItem.
Record t : Type := mk {
  id : string;
  created_at : option Z;
  note : Note.t
}.
End NoteItem.

Definition note_item (s : StoredNote.t) : NoteItem.t :=
  NoteItem.mk (str_ObjectId (StoredNote._id s)) (StoredNote.created_at s)
              (StoredNote.note s).

(** [x.get("created_at", 0)] *)
Definition created_key (x : NoteItem.t) : Z :=
  match NoteItem.created_at x with
  | Some t => t
  | None => 0%Z
  end.

(** [docs.sort(key=..., reverse=True)]: descending, equal keys in their
    original order. *)
Fixpoint insert_desc (x : NoteItem.t) (l : list NoteItem.t) : list NoteItem.t :=
  match l with
  | [] => [x]
  | y :: l' =>
      if (created_key y <=? created_key x)%Z then x :: y :: l'
      else y :: insert_desc x l'
  end.

Definition sort_desc (l : list NoteItem.t) : list NoteItem.t :=
  fold_right insert_desc [] l.

Definition list_notes (c : NoteCollection) (coaching_id : string) : list NoteItem.t :=
  sort_desc (map note_item (get_note_documents c coaching_id)).

(* ================================================================== *)
(** ** Listing: [list_coachings] *)

(** [s.split(sep)] for a one-character [sep] *)
Fixpoint split_on (sep : ascii) (s : string) : list string :=
  match s with
  | EmptyString => [EmptyString]
  | String c s' =>
      if Ascii.eqb c sep then EmptyString :: split_on sep s'
      else
        match split_on sep s' with
        | w :: ws => String c w :: ws
        | [] => [String c EmptyString]
        end
  end.

(** [[e.strip() for e in exams.split(',') if e.strip()]] *)
Definition parse_exams (exams : string) : list string :=
  map Py.strip (filter (fun e => Py.truthy (Py.strip e)) (split_on "," exams)).

(** The conditions and the filter built by [list_coachings]; the filter
    keeps the order in which the keys are set. *)
Inductive condition : Type :=
| CEq (v : string)
| CRegex (pattern options : string)
| CAll (values : list string)
| CRange (gte lte : option Z).

Inductive clause : Type :=
| Field (key : string) (c : condition)
| OrClause (alternatives : list (string * condition)).

Definition Filter : Type := list clause.

Module ListQuery.
Record t : Type := mk {
  city : option string;
  exams : option string;
  min_size : option Z;
  max_size : option Z;
  status : option string;
  q : option string
}.
End ListQuery.

Definition is_some {A : Type} (o : option A) : bool :=
  match o with Some _ => true | None => false end.

(** Lines 83-105 *)
Definition list_filter (p : ListQuery.t) : Filter :=
  let filt := [] in
  let filt :=
    match ListQuery.city p with
    | Some city =>
        if Py.truthy city
        then filt ++ [Field "city" (CRegex ("^" ++ city ++ "$")%string "i")]
        else filt
    | None => filt
    end in
  let filt :=
    match ListQuery.status p with
    | Some status => if Py.truthy status then filt ++ [Field "status" (CEq status)] else filt
    | None => filt
    end in
  let filt :=
    match ListQuery.exams p with
    | Some exams =>
        if Py.truthy exams then
          match parse_exams exams with
          | [] => filt
          | exams_list => filt ++ [Field "exams" (CAll exams_list)]
          end
        else filt
    | None => filt
    end in
  let filt :=
    if is_some (ListQuery.min_size p) || is_some (ListQuery.max_size p)
    then filt ++ [Field "size" (CRange (ListQuery.min_size p) (ListQuery.max_size p))]
    else filt in
  match ListQuery.q p with
  | Some q =>
      if Py.truthy q
      then filt ++ [OrClause [ ("name", CRegex q "i"); ("address", CRegex q "i");
                               ("city", CRegex q "i") ]]
      else filt
  | None => filt
  end.

(** The value of a field of a lead. *)
Inductive value : Type :=
| VText (s : option string)
| VTexts (l : list string)
| VInt (n : option Z)
| VMissing.

Definition field_value (d : Coaching.t) (key : string) : value :=
  if String.eqb key "name" then VText (Some (Coaching.name d))
  else if String.eqb key "city" then VText (Some (Coaching.city d))
  else if String.eqb key "status" then VText (Some (Coaching.status d))
  else if String.eqb key "address" then VText (Coaching.address d)
  else if String.eqb key "exams" then VTexts (Coaching.exams d)
  else if String.eqb key "size" then VInt (Coaching.size d)
  else VMissing.

Section Listing.

Variable env : Env.

(** Modelled from the spec: the filter semantics of the store behind
    [get_documents] of [database.py]: exact match, caseless regular
    expression, inclusive numeric range (an absent number is outside any
    range), "contains all of these values", OR across field conditions.
    A pattern is compiled when the query is parsed, so an invalid one
    raises whatever the collection holds. *)
Definition compile_condition (c : condition) : result (value -> bool) :=
  match c with
  | CEq v =>
      Return (fun x => match x with
                       | VText (Some s) => String.eqb s v
                       | VTexts l => mem v l
                       | _ => false
                       end)
  | CRegex pattern _ =>
      rx <- Regex.compile (regex_other env) pattern ;;
      Return (fun x => match x with
                       | VText (Some s) => rx s
                       | VTexts l => existsb rx l
                       | _ => false
                       end)
  | CAll values =>
      Return (fun x => match x with
                       | VTexts l => forallb (fun v => mem v l) values
                       | _ => false
                       end)
  | CRange gte lte =>
      Return (fun x => match x with
                       | VInt (Some n) =>
                           match gte with Some a => (a <=? n)%Z | None => true end
                           && match lte with Some b => (n <=? b)%Z | None => true end
                       | _ => false
                       end)
  end.

Fixpoint compile_alternatives (alts : list (string * condition))
  : result (Coaching.t -> bool) :=
  match alts with
  | [] => Return (fun _ => false)
  | (key, c) :: rest =>
      f <- compile_condition c ;;
      g <- compile_alternatives rest ;;
      Return (fun d => f (field_value d key) || g d)
  end.

Definition compile_clause (cl : clause) : result (Coaching.t -> bool) :=
  match cl with
  | Field key c =>
      f <- compile_condition c ;;
      Return (fun d => f (field_value d key))
  | OrClause alts => compile_alternatives alts
  end.

Fixpoint compile_filter (filt : Filter) : result (Coaching.t -> bool) :=
  match filt with
  | [] => Return (fun _ => true)
  | cl :: rest =>
      f <- compile_clause cl ;;
      g <- compile_filter rest ;;
      Return (fun d => f d && g d)
  end.

Definition get_documents (c : Collection) (filt : Filter)
  : result (list (ObjectId * Coaching.t)) :=
  f <- compile_filter filt ;;
  Return (filter (fun p => f (snd p)) c).

(** [list_coachings]: each document with ["_id"] replaced by ["id"]. *)
Definition list_coachings (c : Collection) (p : ListQuery.t)
  : result (list (string * Coaching.t)) :=
  found <- get_documents c (list_filter p) ;;
  Return (map (fun x => (str_ObjectId (fst x), snd x)) found).

End Listing.

(* ================================================================== *)
(** ** A concrete [netloc] and concrete pages, for the examples *)

Definition is_scheme_char (c : ascii) : bool :=
  Py.is_alnum c || Ascii.eqb c "+" || Ascii.eqb c "-" || Ascii.eqb c ".".

(** What follows the first [:] when only scheme characters precede it. *)
Fixpoint after_scheme (url : string) : option string :=
  match url with
  | EmptyString => None
  | String c rest =>
      if Ascii.eqb c ":" then Some rest
      else if is_scheme_char c then after_scheme rest
      else None
  end.

Fixpoint until_delim (s : string) : string :=
  match s with
  | EmptyString => EmptyString
  | String c rest =>
      if Ascii.eqb c "/" || Ascii.eqb c "?" || Ascii.eqb c "#" then EmptyString
      else String c (until_delim rest)
  end.

(** [urlsplit(url).netloc] on a URL free of brackets and of tab, CR and
    LF: the text between [scheme://] and the first of [/], [?], [#]. *)
Definition url_netloc (url : string) : string :=
  let rest :=
    match url with
    | String c _ =>
        if Py.is_upper c || Py.is_lower c
        then match after_scheme url with Some r => r | None => url end
        else url
    | EmptyString => url
    end in
  match rest with
  | String "/" (String "/" r) => until_delim r
  | _ => EmptyString
  end.

Definition anchor (cls : list string) (href : string) : Tag.t :=
  Tag.mk "a" [("href", href)] cls None.

Definition title_tag (s : string) : Tag.t := Tag.mk "title" [] [] (Some s).

Definition meta_name (n content : string) : Tag.t :=
  Tag.mk "meta" [("name", n); ("content", content)] [] None.

Definition meta_property (p content : string) : Tag.t :=
  Tag.mk "meta" [("property", p); ("content", content)] [] None.

(** A web made of pages given by their URL; the body of a page is its
    URL, so that the parser maps a body to the elements of that page.
    Every other request fails. *)
Fixpoint page_of (web : list (string * Soup)) (url : string) : option Soup :=
  match web with
  | [] => None
  | (u, soup) :: rest => if String.eqb u url then Some soup else page_of rest url
  end.

Definition env_of_web (other : string -> result (string -> bool))
    (web : list (string * Soup)) : Env :=
  {| requests_get := fun url =>
       match page_of web url with
       | Some _ => Response 200 url
       | None => ConnectionError
       end;
     parse_html := fun body =>
       match page_of web body with
       | Some soup => soup
       | None => []
       end;
     netloc := url_netloc;
     regex_other := other;
     insert_rejected := fun _ => false |}.

(* ================================================================== *)
(** ** Reference definitions used in the statements *)

(** The two queries of one exam. *)
Definition exam_queries (city ex : string) : list string :=
  [ (ex ++ " coaching " ++ city)%string; (ex ++ " classes " ++ city)%string ].

(** Ordered merge without repetition: a URL is appended unless present. *)
Definition add_new (acc : list string) (u : string) : list string :=
  if mem u acc then acc else acc ++ [u].

Definition merged (acc urls : list string) : list string :=
  fold_left add_new urls acc.

(** [l1] is [l2] with some elements left out, the order kept. *)
Inductive subseq {A : Type} : list A -> list A -> Prop :=
| subseq_nil : subseq [] []
| subseq_skip (x : A) (l1 l2 : list A) : subseq l1 l2 -> subseq l1 (x :: l2)
| subseq_keep (x : A) (l1 l2 : list A) : subseq l1 l2 -> subseq (x :: l1) (x :: l2).

(** The links whose domain occurs neither in [seen] nor earlier in the list. *)
Fixpoint first_by_domain (dom : string -> string) (seen links : list string)
  : list string :=
  match links with
  | [] => []
  | l :: rest =>
      if mem (dom l) seen then first_by_domain dom seen rest
      else l :: first_by_domain dom (dom l :: seen) rest
  end.

(** The description as worded with the social-preview tag first: its
    content when the tag is present, else the content of the standard
    meta description, cut at 300 characters. *)
Definition description_social_first (soup : Soup) : option string :=
  match find_tag "meta" "property" "og:description" soup with
  | Some tg => option_map (Py.take 300) (content_of (Some tg))
  | None =>
      option_map (Py.take 300) (content_of (find_tag "meta" "name" "description" soup))
  end.

(** The description with the standard meta description first. *)
Definition description_standard_first (soup : Soup) : option string :=
  match find_tag "meta" "name" "description" soup with
  | Some tg => option_map (Py.take 300) (content_of (Some tg))
  | None =>
      option_map (Py.take 300)
        (content_of (find_tag "meta" "property" "og:description" soup))
  end.

(** The website as worded with the search engine's own domain excluded. *)
Definition SEARCH_ENGINE_DOMAIN : string := "duckduckgo.com".

Definition website_unless_search_engine (dom : string -> string) (link : string)
  : option string :=
  if String.eqb (dom link) SEARCH_ENGINE_DOMAIN then None else Some link.

(** [s[n:]] *)
Fixpoint drop (n : nat) (s : string) : string :=
  match n, s with
  | S k, String _ s' => drop k s'
  | _, _ => s
  end.

(** Removal of a leading [p]. *)
Definition strip_leading (p s : string) : string :=
  if prefix p s then drop (String.length p) s else s.

(** The synthesized name as worded: strip a leading "www.", take the
    first label, title-case it, append " Coaching". *)
Definition synth_name_leading_www (dom : string) : string :=
  (Py.title (Py.split_head "." (strip_leading "www." dom)) ++ " Coaching")%string.

(** The three dispositions of a lead. *)
Definition STATUSES : list string := ["neutral"; "liked"; "disliked"].

Definition statuses_valid (c : Collection) : Prop :=
  Forall (fun d => In (Coaching.status d) STATUSES) (docs c).

(** Caseless equality of two strings. *)
Definition caseless_eq (a b : string) : bool :=
  String.eqb (Py.lower a) (Py.lower b).

(** The store holds a record with the website of the draft, or one with
    its name and the city, both compared caselessly. *)
Definition store_holds_match (c : Collection) (doc : Coaching.t) (city : string) : bool :=
  existsb
    (fun r =>
       match Coaching.website doc, Coaching.website r with
       | Some w, Some w' => String.eqb w w'
       | _, _ => false
       end
       || (caseless_eq (Coaching.name r) (Coaching.name doc) && caseless_eq (Coaching.city r) city))
    (docs c).

(** An engine that finds nothing outside the evaluated fragment. *)
Definition other_unmatched : string -> result (string -> bool) :=
  fun _ => Return (fun _ => false).

(** A character with no role in a pattern, and a text made of such
    characters. *)
Definition plain_char (c : ascii) : bool :=
  negb (Regex.is_special c || Regex.is_quant c || Ascii.eqb c ".").

Fixpoint plain (s : string) : bool :=
  match s with
  | EmptyString => true
  | String c s' => plain_char c && plain s'
  end.

(** The pattern items of a plain text: one literal per character. *)
Fixpoint lit_items (s : string) : list Regex.item :=
  match s with
  | EmptyString => []
  | String c s' => (Regex.ALit c, Regex.QOne) :: lit_items s'
  end.

(** Caseless equality with [t], or with [t] less a final newline. *)
Definition caseless_match (p t : string) : bool :=
  caseless_eq p t ||
  match Regex.chop Regex.newline t with
  | Some t' => caseless_eq p t'
  | None => false
  end.

(** The look-up of the coordinator when the name and the city are plain:
    by website when the draft has one, else by caseless name and city. *)
Definition lookup_plain (c : Collection) (doc : Coaching.t) (city : string) : option Coaching.t :=
  match
    match Coaching.website doc with
    | Some w => if Py.truthy w then find_one_by_website c w else None
    | None => None
    end
  with
  | Some d => Some d
  | None =>
      find (fun d => caseless_match (Coaching.name doc) (Coaching.name d)
                     && caseless_match city (Coaching.city d)) (docs c)
  end.

(** Every candidate of the list gets a draft with a plain name. *)
Definition names_plain (env : Env) (city : string) (exams links : list string) : Prop :=
  forall link, In link links ->
    plain (Coaching.name (draft env city exams link (_extract_basic_page_info env link))) = true.

(** *** Concrete webs *)

(** One result for the first query; the page is titled "A+ Classes". *)
Definition web_aplus (link : string) : list (string * Soup) :=
  [ (search_url "coaching institute Delhi", [anchor ["result__a"] link]);
    (link, [title_tag "A+ Classes"]) ].

(** One result for the first query; the title has an opening parenthesis
    that is never closed. *)
Definition web_open_paren : list (string * Soup) :=
  [ (search_url "coaching institute Delhi",
     [anchor ["result__a"] "https://best.example.com/"]);
    ("https://best.example.com/", [title_tag "Best Coaching (Delhi"]) ].

(** Three results, two of them on one domain. *)
Definition web_two_domains : list (string * Soup) :=
  [ (search_url "coaching institute Pune",
     [ anchor ["result__a"] "https://alpha.example.com/a";
       anchor ["result__a"] "https://alpha.example.com/b";
       anchor ["result__a"] "https://beta.example.com/" ]) ].

(** A page carrying both description tags. *)
Definition page_two_descriptions : Soup :=
  [ meta_name "description" "Standard text";
    meta_property "og:description" "Social text" ].

Definition ten_urls : list string :=
  [ "https://a.example/"; "https://b.example/"; "https://c.example/";
    "https://d.example/"; "https://e.example/"; "https://f.example/";
    "https://g.example/"; "https://h.example/"; "https://i.example/";
    "https://j.example/" ].

(** A search provider that answers every query with the same ten URLs. *)
Definition search_ten : string -> Z -> list string := fun _ _ => ten_urls.

Definition lead_aplus (website : option string) : Coaching.t :=
  Coaching.mk "A+ Classes" "Delhi" [] None None None website None [] None None "neutral".

Definition crawl_delhi_1 : CrawlRequest.t := CrawlRequest.mk "Delhi" None 1%Z.

(** *** Invariants and shapes used in the further properties *)

(** The websites present in the store, empty ones aside. *)
Definition websites (c : Collection) : list string :=
  flat_map (fun d => match Coaching.website d with
                     | Some w => if Py.truthy w then [w] else []
                     | None => []
                     end) (docs c).

(** The shape of a lead inserted by a crawl for [city] and [exams]. *)
Definition crawled_lead (city : string) (exams : list string) (d : Coaching.t) : Prop :=
  Coaching.status d = "neutral"
  /\ Coaching.city d = city
  /\ Coaching.exams d = exams
  /\ Coaching.size d = None
  /\ Coaching.images d = []
  /\ Coaching.location d = None
  /\ Coaching.address d = None
  /\ Coaching.name d <> ""
  /\ match Coaching.website d with
     | Some w => Py.contains "google." w = false
     | None => True
     end.

(** No stored size is negative. *)
Definition sizes_valid (c : Collection) : Prop :=
  Forall (fun d => match Coaching.size d with
                   | Some n => (0 <= n)%Z
                   | None => True
                   end) (docs c).

(** The identifiers of the store are those assigned so far. *)
Definition ids_assigned (c : Collection) : Prop :=
  forall i, In i (map fst c) -> (i < N.of_nat (List.length c))%N.

(** One result for the first query; the page is titled "Apex Classes". *)
Definition web_apex : list (string * Soup) :=
  [ (search_url "coaching institute Delhi",
     [anchor ["result__a"] "https://apex.example.com/"]);
    ("https://apex.example.com/", [title_tag "Apex Classes"]) ].

Definition lead_apex : Coaching.t :=
  Coaching.mk "Apex Classes" "Delhi" [] None None None
              (Some "https://apex.example.com/") None [] None None "neutral".

(** The criteria of a listing request, read on a lead: a caseless city,
    an exact status, every listed exam, and a size within the bounds
    given. *)
Definition city_criterion (p : ListQuery.t) (d : Coaching.t) : bool :=
  match ListQuery.city p with
  | Some city => if Py.truthy city then caseless_match city (Coaching.city d) else true
  | None => true
  end.

Definition status_criterion (p : ListQuery.t) (d : Coaching.t) : bool :=
  match ListQuery.status p with
  | Some status => if Py.truthy status then String.eqb (Coaching.status d) status else true
  | None => true
  end.

Definition exams_criterion (p : ListQuery.t) (d : Coaching.t) : bool :=
  match ListQuery.exams p with
  | Some exams => forallb (fun v => mem v (Coaching.exams d)) (parse_exams exams)
  | None => true
  end.

Definition size_criterion (p : ListQuery.t) (d : Coaching.t) : bool :=
  if is_some (ListQuery.min_size p) || is_some (ListQuery.max_size p)
  then match Coaching.size d with
       | Some n =>
           match ListQuery.min_size p with Some a => (a <=? n)%Z | None => true end
           && match ListQuery.max_size p with Some b => (n <=? b)%Z | None => true end
       | None => false
       end
  else true.

Definition listing_criteria (p : ListQuery.t) (d : Coaching.t) : bool :=
  city_criterion p d && status_criterion p d && exams_criterion p d
  && size_criterion p d.

(** The steps of [list_filter], one per parameter. *)
Definition with_city (p : ListQuery.t) (filt : Filter) : Filter :=
  match ListQuery.city p with
  | Some city =>
      if Py.truthy city
      then filt ++ [Field "city" (CRegex ("^" ++ city ++ "$")%string "i")]
      else filt
  | None => filt
  end.

Definition with_status (p : ListQuery.t) (filt : Filter) : Filter :=
  match ListQuery.status p with
  | Some status => if Py.truthy status then filt ++ [Field "status" (CEq status)] else filt
  | None => filt
  end.

Definition with_exams (p : ListQuery.t) (filt : Filter) : Filter :=
  match ListQuery.exams p with
  | Some exams =>
      if Py.truthy exams then
        match parse_exams exams with
        | [] => filt
        | exams_list => filt ++ [Field "exams" (CAll exams_list)]
        end
      else filt
  | None => filt
  end.

Definition with_size (p : ListQuery.t) (filt : Filter) : Filter :=
  if is_some (ListQuery.min_size p) || is_some (ListQuery.max_size p)
  then filt ++ [Field "size" (CRange (ListQuery.min_size p) (ListQuery.max_size p))]
  else filt.

(** The filter compiles to a predicate that agrees with [P]. *)
Definition compiles (env : Env) (filt : Filter) (P : Coaching.t -> bool) : Prop :=
  exists f, compile_filter env filt = Return f /\ forall d, f d = P d.

(** Newest first. *)
Definition newer_first (a b : NoteItem.t) : Prop :=
  (created_key b <= created_key a)%Z.

(** An exam name as [parse_exams] yields them. *)
Definition clean_exam (e : string) : Prop :=
  e <> "" /\ Py.strip e = e /\ Regex.has_char "," e = false.

(** *** Concrete requests for the instances *)

Definition store_apex : Collection := [(0%N, lead_apex)].

Definition body_apex : CoachingBody.t :=
  CoachingBody.mk (Some "Apex Classes") (Some "Pune") None (Some 120%Z) None None
                  None None None None None None.

Definition crawl_blank_city : CrawlRequest.t := CrawlRequest.mk "   " None 5%Z.

Definition query_delhi_neutral : ListQuery.t :=
  ListQuery.mk (Some "delhi") None None None (Some "neutral") None.

(* ================================================================== *)
(** * Properties *)

(** ** Strings *)

Lemma take_length (n : nat) (s : string) : String.length (Py.take n s) <= n.
Proof.
  revert s; induction n as [|n IH]; intros [|c s]; simpl; try lia.
  specialize (IH s); lia.
Qed.

Lemma take_short (n : nat) (s : string) :
  String.length s <= n -> Py.take n s = s.
Proof.
  revert s; induction n as [|n IH]; intros [|c s]; simpl; intros H; try reflexivity; try lia.
  rewrite IH by lia; reflexivity.
Qed.

Lemma option_take_length (n : nat) (o : option string) (d : string) :
  option_map (Py.take n) o = Some d -> String.length d <= n.
Proof.
  destruct o as [s|]; intros H; [| discriminate].
  cbn [option_map] in H. replace d with (Py.take n s) by congruence.
  apply take_length.
Qed.

Lemma mem_true_iff (x : string) (l : list string) : mem x l = true <-> In x l.
Proof. unfold mem; destruct (in_dec string_dec x l); split; intros; congruence || assumption || reflexivity. Qed.

Lemma mem_false_iff (x : string) (l : list string) : mem x l = false <-> ~ In x l.
Proof. unfold mem; destruct (in_dec string_dec x l); split; intros; congruence || assumption || reflexivity. Qed.

(* ------------------------------------------------------------------ *)
(** ** Query builder *)

Lemma fold_exam_queries (city : string) (exams terms : list string) :
  fold_left
    (fun terms ex =>
       (terms ++ [ (ex ++ " coaching " ++ city)%string ])
              ++ [ (ex ++ " classes " ++ city)%string ])
    exams terms
  = terms ++ flat_map (exam_queries city) exams.
Proof.
  revert terms; induction exams as [|ex exams IH]; intros terms; simpl.
  - now rewrite app_nil_r.
  - rewrite IH. now rewrite <- !app_assoc.
Qed.

Section CollectFacts.

Variable search : string -> Z -> list string.

(** The calls made are the first [n] queries, each with the per-query limit. *)
Lemma collect_candidates_issued (limit : Z) (queries : list string) :
  forall collected issued,
  exists n, n <= List.length queries /\
    snd (collect_candidates search limit collected issued queries)
    = issued ++ map (fun q => (q, per_query_limit limit)) (firstn n queries).
Proof.
  induction queries as [|q rest IH]; intros collected issued; simpl.
  - exists 0; split; [lia | now rewrite app_nil_r].
  - destruct (limit <=? _)%Z.
    + exists 1; split; [lia | reflexivity].
    + destruct (IH (merge_urls limit collected (search q (per_query_limit limit)))
                   (issued ++ [(q, per_query_limit limit)])) as [n [Hn Hs]].
      exists (S n); split; [lia |].
      rewrite Hs, <- app_assoc; reflexivity.
Qed.

End CollectFacts.

(** C9. The query builder yields the three base templates followed, for
    each exam in order, by "{exam} coaching {city}" and
    "{exam} classes {city}"; for Delhi and NEET these are exactly five
    queries; the coordinator issues a prefix of at most five of them. *)
Theorem query_builder_templates :
  (forall city exams,
      build_queries city exams
      = [ ("coaching institute " ++ city)%string;
          ("tuition classes " ++ city)%string;
          ("test prep coaching " ++ city)%string ]
        ++ flat_map (fun ex => [ (ex ++ " coaching " ++ city)%string;
                                 (ex ++ " classes " ++ city)%string ]) exams)
  /\ build_queries "Delhi" ["NEET"]
     = [ "coaching institute Delhi"; "tuition classes Delhi";
         "test prep coaching Delhi"; "NEET coaching Delhi"; "NEET classes Delhi" ]
  /\ (forall search city exams limit,
        exists n, n <= 5 /\
          map fst (snd (collect search city exams limit))
          = firstn n (build_queries city exams)).
Proof.
  split; [| split].
  - intros city exams. unfold build_queries. apply fold_exam_queries.
  - reflexivity.
  - intros search city exams limit. unfold collect.
    destruct (collect_candidates_issued search limit
                (firstn 5 (build_queries city exams)) [] []) as [n [Hn Hs]].
    exists (Nat.min n 5); split; [lia |].
    rewrite Hs, firstn_firstn, app_nil_l, map_map.
    apply map_id.
Qed.

(* ------------------------------------------------------------------ *)
(** ** Candidate collection *)

Lemma add_new_extends (acc : list string) (u : string) :
  exists t, add_new acc u = acc ++ t /\ List.length t <= 1.
Proof.
  unfold add_new; destruct (mem u acc).
  - exists []; split; [now rewrite app_nil_r | simpl; lia].
  - exists [u]; split; [reflexivity | simpl; lia].
Qed.

Lemma merged_extends (urls acc : list string) :
  exists t, merged acc urls = acc ++ t.
Proof.
  revert acc; induction urls as [|u urls IH]; intros acc; simpl.
  - exists []; now rewrite app_nil_r.
  - destruct (add_new_extends acc u) as [t [Ht _]].
    destruct (IH (add_new acc u)) as [t' Ht'].
    exists (t ++ t'). unfold merged in *; simpl. rewrite Ht', Ht, app_assoc; reflexivity.
Qed.

Lemma merged_app (acc l1 l2 : list string) :
  merged acc (l1 ++ l2) = merged (merged acc l1) l2.
Proof. apply fold_left_app. Qed.

Lemma add_new_NoDup (acc : list string) (u : string) :
  NoDup acc -> NoDup (add_new acc u).
Proof.
  intros H; unfold add_new; destruct (mem u acc) eqn:E; [assumption |].
  apply mem_false_iff in E.
  apply NoDup_app; [assumption | repeat constructor; intros [] | ].
  intros x Hx [Hu | []]; subst; contradiction.
Qed.

Lemma merged_NoDup (urls acc : list string) :
  NoDup acc -> NoDup (merged acc urls).
Proof.
  revert acc; induction urls as [|u urls IH]; intros acc H; simpl; [assumption |].
  apply IH, add_new_NoDup, H.
Qed.

Lemma merged_In (urls acc : list string) (x : string) :
  In x (merged acc urls) <-> In x acc \/ In x urls.
Proof.
  revert acc; induction urls as [|u urls IH]; intros acc; simpl.
  - tauto.
  - unfold merged in *; simpl. rewrite IH. unfold add_new.
    destruct (mem u acc) eqn:E.
    + apply mem_true_iff in E. split; [tauto |].
      intros [H | [H | H]]; subst; auto.
    + rewrite in_app_iff; simpl; tauto.
Qed.

(** A list without repetition is merged unchanged. *)
Lemma merged_fresh (urls acc : list string) :
  NoDup (acc ++ urls) -> merged acc urls = acc ++ urls.
Proof.
  revert acc; induction urls as [|u urls IH]; intros acc H; simpl.
  - now rewrite app_nil_r.
  - unfold merged in *; simpl. unfold add_new.
    destruct (mem u acc) eqn:E.
    + apply mem_true_iff in E. apply NoDup_remove_2 in H.
      exfalso; apply H, in_or_app; auto.
    + rewrite IH; rewrite <- app_assoc; [reflexivity | exact H].
Qed.

Lemma NoDup_firstn {A : Type} (n : nat) (l : list A) :
  NoDup l -> NoDup (firstn n l).
Proof.
  intros H. rewrite <- (firstn_skipn n l) in H.
  eapply NoDup_app_remove_r; exact H.
Qed.

Lemma firstn_prefix (l t : list string) : firstn (List.length l) (l ++ t) = l.
Proof.
  rewrite firstn_app, Nat.sub_diag, firstn_all; simpl. apply app_nil_r.
Qed.

(** The inner loop computes the merge, cut at the limit. *)
Lemma merge_urls_firstn (L : nat) (urls collected : list string) :
  List.length collected < L ->
  merge_urls (Z.of_nat L) collected urls = firstn L (merged collected urls).
Proof.
  revert collected; induction urls as [|u urls IH]; intros collected H; simpl.
  - symmetry; apply firstn_all2; lia.
  - fold (add_new collected u).
    destruct (add_new_extends collected u) as [t [Ht Hlen]].
    destruct (Z.leb_spec (Z.of_nat L) (Z.of_nat (List.length (add_new collected u)))) as [Hle | Hlt].
    + assert (HL : List.length (add_new collected u) = L).
      { rewrite Ht in *. rewrite length_app in *. lia. }
      destruct (merged_extends urls (add_new collected u)) as [t' Ht'].
      unfold merged in *; simpl. rewrite Ht'. rewrite <- HL. symmetry; apply firstn_prefix.
    + rewrite IH by lia. reflexivity.
Qed.

Section CollectSpec.

Variable search : string -> Z -> list string.
Variable L : nat.

Let k : Z := per_query_limit (Z.of_nat L).
Let results (qs : list string) : list string := List.concat (map (fun q => search q k) qs).

Lemma collect_candidates_spec (queries : list string) :
  forall collected issued,
  List.length collected < L ->
  exists n, n <= List.length queries /\ (queries <> [] -> 0 < n) /\
    snd (collect_candidates search (Z.of_nat L) collected issued queries)
      = issued ++ map (fun q => (q, k)) (firstn n queries) /\
    fst (collect_candidates search (Z.of_nat L) collected issued queries)
      = firstn L (merged collected (results (firstn n queries))) /\
    (forall j, j < n ->
       List.length (merged collected (results (firstn j queries))) < L) /\
    (n < List.length queries ->
       List.length (fst (collect_candidates search (Z.of_nat L) collected issued queries)) = L).
Proof.
  induction queries as [|q rest IH]; intros collected issued Hlen.
  - exists 0; simpl.
    split; [lia |]. split; [congruence |].
    split; [now rewrite app_nil_r |].
    split; [symmetry; apply firstn_all2; unfold results; simpl; lia |].
    split; [intros j Hj; lia | intros Hj; lia].
  - simpl. fold k.
    rewrite (merge_urls_firstn L (search q k) collected Hlen).
    set (m := merged collected (search q k)).
    destruct (Z.leb_spec (Z.of_nat L) (Z.of_nat (List.length (firstn L m)))) as [Hle | Hlt].
    + exists 1; simpl.
      split; [lia |]. split; [lia |].
      split; [reflexivity |].
      split; [unfold results; simpl; now rewrite app_nil_r |].
      split.
      * intros j Hj. assert (j = 0) by lia; subst j. unfold results; simpl. exact Hlen.
      * intros _. apply Nat.le_antisymm; [apply firstn_le_length | lia].
    + assert (Hm : List.length m < L).
      { rewrite length_firstn in Hlt. lia. }
      assert (Hfm : firstn L m = m) by (apply firstn_all2; lia).
      rewrite Hfm.
      destruct (IH m (issued ++ [(q, k)]) Hm) as [n [Hn [_ [Hs [Hf [Hj Hstop]]]]]].
      exists (S n).
      split; [simpl; lia |]. split; [lia |].
      split; [rewrite Hs, <- app_assoc; reflexivity |].
      split; [rewrite Hf; unfold results; simpl; now rewrite merged_app |].
      split.
      * intros j Hlt'. destruct j as [|j]; [unfold results; simpl; exact Hlen |].
        unfold results; simpl. rewrite merged_app. apply Hj; lia.
      * intros Hlt'. apply Hstop. simpl in Hlt'. lia.
Qed.

End CollectSpec.

(** C8. The coordinator calls the search provider for the queries in
    order, each with the limit max(5, limit // 2); what it collects is the
    ordered merge without repetition of the answers, cut at [limit]; a
    further query is issued only while fewer than [limit] URLs are held,
    and when a query is left out the list holds exactly [limit] URLs.
    With limit 3 and ten distinct URLs for the first query, the first
    three are collected and the first query is the only one issued. *)
Theorem collect_short_circuit :
  (forall search city exams limit,
      (0 < limit)%Z ->
      let queries := firstn 5 (build_queries city exams) in
      let k := Z.max 5 (limit / 2) in
      let results := fun n => List.concat (map (fun q => search q k) (firstn n queries)) in
      let out := collect search city exams limit in
      exists n, 0 < n <= List.length queries /\
        snd out = map (fun q => (q, k)) (firstn n queries) /\
        fst out = firstn (Z.to_nat limit) (merged [] (results n)) /\
        NoDup (fst out) /\
        (Z.of_nat (List.length (fst out)) <= limit)%Z /\
        (forall j, j < n -> (Z.of_nat (List.length (merged [] (results j))) < limit)%Z) /\
        (n < List.length queries -> Z.of_nat (List.length (fst out)) = limit))
  /\
  (forall search city exams urls,
      search ("coaching institute " ++ city)%string 5%Z = urls ->
      List.length urls = 10 ->
      NoDup urls ->
      collect search city exams 3
      = (firstn 3 urls, [ (("coaching institute " ++ city)%string, 5%Z) ])).
Proof.
  split.
  - intros search city exams limit Hpos queries k results out.
    assert (HL : limit = Z.of_nat (Z.to_nat limit)) by lia.
    assert (Hlen0 : @List.length string [] < Z.to_nat limit) by (simpl; lia).
    destruct (collect_candidates_spec search (Z.to_nat limit) queries [] [] Hlen0)
      as [n [Hn [Hne [Hs [Hf [Hj Hstop]]]]]].
    rewrite <- HL in *.
    exists n. unfold out, collect. fold queries.
    assert (Hq : queries <> []).
    { unfold queries, build_queries. rewrite fold_exam_queries. simpl. discriminate. }
    split; [split; [apply Hne, Hq | exact Hn] |].
    split; [exact Hs |].
    split; [exact Hf |].
    split; [rewrite Hf; apply NoDup_firstn, merged_NoDup; constructor |].
    split; [rewrite Hf, length_firstn; lia |].
    split; [intros j Hlt; specialize (Hj j Hlt); unfold results, k, per_query_limit in *; lia |].
    intros Hlt. rewrite (Hstop Hlt). lia.
  - intros search city exams urls Hs Hlen Hnd.
    unfold collect, build_queries. rewrite fold_exam_queries.
    cbn [firstn app collect_candidates].
    change (per_query_limit 3) with 5%Z. rewrite Hs.
    change 3%Z with (Z.of_nat 3).
    rewrite (merge_urls_firstn 3 urls []) by (simpl; lia).
    rewrite merged_fresh by exact Hnd. cbn [app].
    rewrite length_firstn, Hlen. reflexivity.
Qed.

(* ------------------------------------------------------------------ *)
(** ** Search provider *)

Section FirstByDomain.

Variable dom : string -> string.

Lemma first_by_domain_subseq (links seen : list string) :
  subseq (first_by_domain dom seen links) links.
Proof.
  revert seen; induction links as [|l rest IH]; intros seen; simpl.
  - constructor.
  - destruct (mem (dom l) seen); constructor; apply IH.
Qed.

Lemma first_by_domain_unseen (links seen : list string) (x : string) :
  In x (first_by_domain dom seen links) -> ~ In (dom x) seen.
Proof.
  revert seen; induction links as [|l rest IH]; intros seen; simpl; [tauto |].
  destruct (mem (dom l) seen) eqn:E.
  - apply IH.
  - apply mem_false_iff in E. intros [-> | Hin]; [exact E |].
    intros Hs. apply (IH _ Hin). now right.
Qed.

Lemma first_by_domain_NoDup (links seen : list string) :
  NoDup (map dom (first_by_domain dom seen links)).
Proof.
  revert seen; induction links as [|l rest IH]; intros seen; simpl.
  - constructor.
  - destruct (mem (dom l) seen); simpl; [apply IH |].
    constructor; [| apply IH].
    intros Hin. apply in_map_iff in Hin. destruct Hin as [x [Hx Hin]].
    apply first_by_domain_unseen in Hin. apply Hin. now left.
Qed.

Lemma first_by_domain_first (pre : list string) (l : string) (post seen : list string) :
  (forall x, In x pre -> dom x <> dom l) ->
  ~ In (dom l) seen ->
  In l (first_by_domain dom seen (pre ++ l :: post)).
Proof.
  revert seen; induction pre as [|p pre IH]; intros seen Hpre Hseen; simpl.
  - apply mem_false_iff in Hseen. rewrite Hseen. now left.
  - destruct (mem (dom p) seen).
    + apply IH; [intros x Hx; apply Hpre; now right | exact Hseen].
    + right. apply IH; [intros x Hx; apply Hpre; now right |].
      intros [Heq | Hin]; [| exact (Hseen Hin)].
      apply (Hpre p); [now left | exact Heq].
Qed.

Lemma first_by_domain_length (links seen : list string) :
  List.length (first_by_domain dom seen links) <= List.length links.
Proof.
  revert seen; induction links as [|l rest IH]; intros seen; simpl; [lia |].
  destruct (mem (dom l) seen); simpl; [specialize (IH seen) | specialize (IH (dom l :: seen))]; lia.
Qed.

End FirstByDomain.

Section SearchFacts.

Variable env : Env.

Lemma collect_links_length (L : nat) (anchors : list Tag.t) :
  forall links, List.length links < L ->
  List.length (collect_links (Z.of_nat L) links anchors) <= L.
Proof.
  induction anchors as [|a rest IH]; intros links H; simpl; [lia |].
  set (links' := match Tag.get a "href" with
                 | Some h => if is_http_href (Tag.get a "href") then links ++ [h] else links
                 | None => links
                 end).
  assert (Hl : List.length links' <= S (List.length links)).
  { unfold links'. destruct (Tag.get a "href"); [| lia].
    destruct (is_http_href _); [rewrite length_app; simpl |]; lia. }
  destruct (Z.leb_spec (Z.of_nat L) (Z.of_nat (List.length links'))); [lia |].
  apply IH; lia.
Qed.

Lemma page_links_length (L : nat) (soup : Soup) :
  0 < L -> List.length (page_links soup (Z.of_nat L)) <= L.
Proof.
  intros H. unfold page_links.
  pose proof (collect_links_length L (select_result_a soup) [] H) as H1.
  pose proof (collect_links_length L (find_all_a soup) [] H) as H2.
  destruct (collect_links (Z.of_nat L) [] (select_result_a soup)); [exact H2 | exact H1].
Qed.

(** The loop over the links leaves early only when nothing is left. *)
Lemma dedup_domains_spec (L : nat) (links : list string) :
  forall seen uniq,
  List.length uniq + List.length links <= L ->
  dedup_domains env (Z.of_nat L) seen uniq links
  = uniq ++ first_by_domain (netloc env) seen links.
Proof.
  induction links as [|l rest IH]; intros seen uniq H; simpl.
  - now rewrite app_nil_r.
  - simpl in H. destruct (mem (netloc env l) seen) eqn:E; simpl.
    + destruct (Z.leb_spec (Z.of_nat L) (Z.of_nat (List.length uniq))); [lia |].
      apply IH; lia.
    + destruct (Z.leb_spec (Z.of_nat L) (Z.of_nat (List.length (uniq ++ [l])))) as [Hle | Hlt].
      * rewrite length_app in Hle; simpl in Hle.
        destruct rest; [reflexivity | simpl in H; lia].
      * rewrite IH by (rewrite length_app; simpl; lia).
        now rewrite <- app_assoc.
Qed.

Lemma search_results_spec (L : nat) (soup : Soup) :
  0 < L ->
  search_results env soup (Z.of_nat L)
  = first_by_domain (netloc env) [] (page_links soup (Z.of_nat L)).
Proof.
  intros H. unfold search_results.
  rewrite dedup_domains_spec; [reflexivity |].
  simpl. now apply page_links_length.
Qed.

End SearchFacts.

(** C7. For a positive limit the search provider returns at most [limit]
    URLs with pairwise distinct domains; when the result page was fetched,
    the URLs are links of the page in their original order and every link
    that is the first of its domain is among them. *)
Theorem search_provider_dedup_by_domain :
  forall env query limit,
    (0 < limit)%Z ->
    let out := _ddg_search_urls env query limit in
    (Z.of_nat (List.length out) <= limit)%Z /\
    NoDup (map (netloc env) out) /\
    (forall code text,
        requests_get env (search_url query) = Response code text ->
        status_is_error code = false ->
        let links := page_links (parse_html env text) limit in
        subseq out links /\
        (forall pre l post,
            links = pre ++ l :: post ->
            (forall x, In x pre -> netloc env x <> netloc env l) ->
            In l out)).
Proof.
  intros env query limit Hpos out.
  assert (HL : limit = Z.of_nat (Z.to_nat limit)) by lia.
  assert (HL0 : 0 < Z.to_nat limit) by lia.
  unfold out, _ddg_search_urls.
  destruct (requests_get env (search_url query)) as [|code text] eqn:Hget.
  - simpl. split; [lia |]. split; [constructor |]. intros; discriminate.
  - destruct (status_is_error code) eqn:Herr.
    + simpl. split; [lia |]. split; [constructor |].
      intros code' text' Heq Hok. injection Heq as <- <-. congruence.
    + rewrite HL, (search_results_spec env _ _ HL0), <- HL.
      split.
      { pose proof (first_by_domain_length (netloc env)
                      (page_links (parse_html env text) limit) []) as H1.
        pose proof (page_links_length (Z.to_nat limit) (parse_html env text) HL0) as H2.
        rewrite <- HL in H2. lia. }
      split; [apply first_by_domain_NoDup |].
      intros code' text' Heq _. injection Heq as <- <-.
      split; [apply first_by_domain_subseq |].
      intros pre l post Hlinks Hpre. rewrite Hlinks.
      apply first_by_domain_first; [exact Hpre | intros []].
Qed.

(* ------------------------------------------------------------------ *)
(** ** Page extractor *)

Section ExtractorFacts.

Variable env : Env.

Lemma fill_from_soup_website (soup : Soup) (info : Info.t) :
  Info.website (fill_from_soup soup info) = Info.website info.
Proof.
  unfold fill_from_soup.
  repeat match goal with
         | |- context [match ?x with _ => _ end] => destruct x
         end; reflexivity.
Qed.

Lemma fill_from_soup_description (soup : Soup) (info : Info.t) :
  Info.description (fill_from_soup soup info)
  = match content_of (or_tag (find_tag "meta" "name" "description" soup)
                             (find_tag "meta" "property" "og:description" soup)) with
    | Some c => Some (Py.take 300 c)
    | None => Info.description info
    end.
Proof.
  unfold fill_from_soup.
  repeat match goal with
         | |- context [match ?x with _ => _ end] => destruct x
         end; reflexivity.
Qed.

Lemma info_before_fetch_description (link : string) :
  Info.description (info_before_fetch link) = None.
Proof. unfold info_before_fetch. destruct (_ || _); reflexivity. Qed.

Lemma info_before_fetch_website (link : string) :
  Info.website (info_before_fetch link)
  = if Py.contains "google." link then None else Some link.
Proof.
  unfold info_before_fetch.
  destruct (Py.contains "google." link); destruct (_ || _); reflexivity.
Qed.

End ExtractorFacts.

(** C3, as the code has it.  The description is the content of the
    standard meta description when that tag is present, and of the
    social-preview description only when the standard tag is absent; it
    is set only from a non-empty content and is cut at 300 characters; a
    failed request leaves it absent. *)
Theorem description_standard_meta_first :
  forall env link,
    Info.description (_extract_basic_page_info env link)
    = match requests_get env link with
      | ConnectionError => None
      | Response _ html => description_standard_first (parse_html env html)
      end
    /\ match Info.description (_extract_basic_page_info env link) with
       | Some d => String.length d <= 300
       | None => True
       end.
Proof.
  intros env link.
  assert (H : Info.description (_extract_basic_page_info env link)
              = match requests_get env link with
                | ConnectionError => None
                | Response _ html => description_standard_first (parse_html env html)
                end).
  { unfold _extract_basic_page_info.
    destruct (requests_get env link) as [|code html].
    - apply info_before_fetch_description.
    - rewrite fill_from_soup_description, info_before_fetch_description.
      unfold description_standard_first, or_tag.
      destruct (find_tag "meta" "name" "description" (parse_html env html)).
      + destruct (content_of (Some t)); reflexivity.
      + destruct (content_of _); reflexivity. }
  split; [exact H |].
  destruct (Info.description (_extract_basic_page_info env link)) as [d|] eqn:Hd;
    [| exact I].
  destruct (requests_get env link) as [|code html]; [discriminate |].
  unfold description_standard_first in H.
  destruct (find_tag "meta" "name" "description" (parse_html env html));
    (apply option_take_length with (1 := eq_sym H)).
Qed.

(** On a page carrying both tags the extractor takes the standard meta
    description, not the social-preview one. *)
Lemma description_social_first_fails :
  let url := "https://institute.example.com/" in
  let env := env_of_web other_unmatched [(url, page_two_descriptions)] in
  Info.description (_extract_basic_page_info env url) = Some "Standard text"
  /\ description_social_first page_two_descriptions = Some "Social text"
  /\ Info.description (_extract_basic_page_info env url)
     <> description_social_first page_two_descriptions.
Proof. vm_compute. repeat split; discriminate. Qed.

(** C4, as the code has it.  The website is the input URL unless the URL
    contains "google." anywhere, in which case it is absent. *)
Theorem website_unless_google :
  forall env link,
    Info.website (_extract_basic_page_info env link)
    = if Py.contains "google." link then None else Some link.
Proof.
  intros env link. unfold _extract_basic_page_info.
  destruct (requests_get env link) as [|code html].
  - apply info_before_fetch_website.
  - rewrite fill_from_soup_website. apply info_before_fetch_website.
Qed.

(** A URL of the search engine keeps its website, and a URL of another
    domain that contains "google." loses it. *)
Lemma website_search_engine_domain_fails :
  let env := env_of_web other_unmatched [] in
  let ddg := "https://duckduckgo.com/about" in
  let site := "https://sites.google.com/view/aplus" in
  Info.website (_extract_basic_page_info env ddg) = Some ddg
  /\ website_unless_search_engine (netloc env) ddg = None
  /\ Info.website (_extract_basic_page_info env ddg)
     <> website_unless_search_engine (netloc env) ddg
  /\ Info.website (_extract_basic_page_info env site) = None
  /\ website_unless_search_engine (netloc env) site = Some site.
Proof. vm_compute. repeat split; discriminate. Qed.

(* ------------------------------------------------------------------ *)
(** ** Synthesized name *)

Lemma replace_absent (old new s : string) :
  Py.contains old s = false -> Py.replace_from old new 0 s = s.
Proof.
  induction s as [|c s IH]; intros H; [reflexivity |].
  cbn [Py.contains] in H. apply orb_false_iff in H. destruct H as [Hp Hc].
  cbn [Py.replace_from]. rewrite Hp, IH by exact Hc. reflexivity.
Qed.

Lemma prefix_split (p s : string) :
  prefix p s = true -> s = (p ++ drop (String.length p) s)%string.
Proof.
  revert s; induction p as [|a p IH]; intros [|b s]; simpl; try discriminate; auto.
  destruct (ascii_dec a b) as [-> |]; [| discriminate].
  intros H. f_equal. now apply IH.
Qed.

Lemma replace_www_prefixed (rest : string) :
  Py.replace_from "www." "" 0 ("www." ++ rest)%string
  = Py.replace_from "www." "" 0 rest.
Proof. destruct rest; reflexivity. Qed.

(** X15. Where "www." occurs at most as a leading prefix, removing every
    occurrence and removing the leading one give the same name. *)
Lemma synth_name_leading_only (dom : string) :
  Py.contains "www." (strip_leading "www." dom) = false ->
  synth_name dom = synth_name_leading_www dom.
Proof.
  unfold synth_name, synth_name_leading_www, strip_leading, Py.replace.
  destruct (prefix "www." dom) eqn:Hp; intros H.
  - rewrite (prefix_split _ _ Hp) at 1.
    set (rest := drop (String.length "www.") dom) in *.
    rewrite replace_www_prefixed.
    rewrite (replace_absent "www." "" rest H). reflexivity.
  - rewrite (replace_absent "www." "" dom H). reflexivity.
Qed.

(** C10 at "https://helpwww.example.com/": no name is extracted, the
    domain is "helpwww.example.com", and the draft is named
    "Helpexample Coaching" where stripping a leading "www." gives
    "Helpwww Coaching". *)
Theorem synthesized_name_drops_inner_www :
  let link := "https://helpwww.example.com/" in
  let env := env_of_web other_unmatched [] in
  let info := _extract_basic_page_info env link in
  Info.name info = None
  /\ netloc env link = "helpwww.example.com"
  /\ Coaching.name (draft env "Pune" [] link info) = "Helpexample Coaching"
  /\ synth_name_leading_www (netloc env link) = "Helpwww Coaching".
Proof. vm_compute. repeat split. Qed.

(* ------------------------------------------------------------------ *)
(** ** Status of the stored leads *)

Lemma statuses_valid_insert (c : Collection) (d : Coaching.t) :
  statuses_valid c -> In (Coaching.status d) STATUSES -> statuses_valid (insert_one c d).
Proof.
  unfold statuses_valid, insert_one, docs. intros Hc Hd.
  rewrite map_app. apply Forall_app; split; [exact Hc |].
  constructor; [exact Hd | constructor].
Qed.

(** A status update stores one of the three dispositions. *)
Lemma update_status_valid (c : Collection) (coaching_id status : string) :
  statuses_valid c ->
  match fst (update_status (Some c) coaching_id status) with
  | Some c' => statuses_valid c'
  | None => False
  end.
Proof.
  intros Hc. unfold update_status.
  destruct (mem status ["liked"; "disliked"; "neutral"]) eqn:E; simpl; [| exact Hc].
  destruct (to_object_id coaching_id) as [oid|e]; simpl; [| exact Hc].
  apply mem_true_iff in E.
  assert (Hs : In status STATUSES) by (unfold STATUSES; simpl in *; tauto).
  clear E. unfold statuses_valid, docs in *.
  induction c as [|[i d] c IH]; simpl; [constructor |].
  inversion_clear Hc as [|? ? Hd Hc'].
  destruct (N.eqb i oid); simpl; constructor; auto.
Qed.

(** The crawl stores leads with status "neutral" only. *)
Lemma ingest_statuses_valid (env : Env) (city : string) (exams links : list string) :
  forall c created seen,
  statuses_valid c ->
  statuses_valid (fst (ingest env city exams links c created seen)).
Proof.
  induction links as [|link rest IH]; intros c created seen Hc; simpl; [exact Hc |].
  destruct (mem _ seen); [now apply IH |].
  destruct (lookup_existing env c _ city) as [[d|]|e]; simpl; try (now apply IH); [| exact Hc].
  destruct (insert_rejected env _); [now apply IH |].
  apply IH, statuses_valid_insert; [exact Hc |].
  simpl. unfold STATUSES. simpl. tauto.
Qed.

(** C5 at a creation request whose status is "archived": the request is
    accepted and the record is stored with that status, which is none of
    neutral, liked, disliked. *)
Theorem create_coaching_stores_any_status :
  let body := CoachingBody.mk (Some "Apex Classes") (Some "Pune") None None None None
                              None None None None None (Some "archived") in
  exists d,
    post_coaching [] body = ([(0%N, d)], Return 0%N)
    /\ Coaching.status d = "archived"
    /\ ~ In (Coaching.status d) STATUSES
    /\ ~ statuses_valid (fst (post_coaching [] body)).
Proof.
  eexists. split; [vm_compute; reflexivity |].
  split; [reflexivity |].
  assert (Hn : ~ In "archived" STATUSES).
  { unfold STATUSES; simpl. intros [H | [H | [H | []]]]; discriminate. }
  split; [exact Hn |].
  intros H. vm_compute in H. inversion_clear H as [|? ? Hd _]. apply Hn.
  vm_compute. exact Hd.
Qed.

(* ------------------------------------------------------------------ *)
(** ** The look-up patterns of a plain text *)

Lemma chop_append (c : ascii) (s : string) :
  Regex.chop c (s ++ String c EmptyString)%string = Some s.
Proof.
  induction s as [|a s IH]; simpl.
  - now rewrite Ascii.eqb_refl.
  - destruct s as [|b s]; simpl in *.
    + now rewrite Ascii.eqb_refl.
    + rewrite IH. reflexivity.
Qed.

Lemma anchored_body_anchored (s : string) :
  Regex.anchored_body ("^" ++ s ++ "$")%string = Some s.
Proof. simpl. apply chop_append. Qed.

Lemma plain_char_quant (c : ascii) : plain_char c = true -> Regex.quant_of c = None.
Proof.
  unfold plain_char, Regex.is_quant. intros H.
  destruct (Regex.quant_of c); [| reflexivity].
  rewrite orb_true_r in H. discriminate.
Qed.

Lemma plain_char_atom (c : ascii) : plain_char c = true -> Regex.atom_of c = Regex.ALit c.
Proof.
  unfold plain_char, Regex.atom_of. intros H.
  destruct (Ascii.eqb c "."); [| reflexivity].
  rewrite orb_true_r in H. discriminate.
Qed.

Lemma plain_char_ordinary (c : ascii) :
  plain_char c = true -> Regex.is_special c || Regex.is_quant c = false.
Proof.
  unfold plain_char. intros H. apply negb_true_iff in H.
  apply orb_false_iff in H. tauto.
Qed.

Lemma parse_items_plain (s : string) :
  plain s = true -> Regex.parse_items s = Some (lit_items s).
Proof.
  induction s as [|c s IH]; intros H; [reflexivity |].
  cbn [plain] in H. apply andb_true_iff in H. destruct H as [Hc Hs].
  cbn [Regex.parse_items lit_items].
  rewrite (plain_char_ordinary c Hc), (plain_char_atom c Hc).
  destruct s as [|q s]; [reflexivity |].
  assert (Hq : plain_char q = true).
  { cbn [plain] in Hs. apply andb_true_iff in Hs. tauto. }
  rewrite (plain_char_quant q Hq), (IH Hs). reflexivity.
Qed.

Lemma match_items_lit (s t : string) :
  Regex.match_items (lit_items s) t = caseless_eq s t.
Proof.
  revert t; induction s as [|c s IH]; intros [|d t]; try reflexivity.
  cbn [lit_items Regex.match_items]. rewrite IH. reflexivity.
Qed.

Lemma search_anchored_lit (s t : string) :
  Regex.search_anchored (lit_items s) t = caseless_match s t.
Proof.
  unfold Regex.search_anchored, caseless_match. rewrite match_items_lit.
  destruct (Regex.chop Regex.newline t); [now rewrite match_items_lit | reflexivity].
Qed.

Lemma has_char_cons (c d : ascii) (s : string) :
  Regex.has_char c (String d s) = Ascii.eqb c d || Regex.has_char c s.
Proof.
  unfold Regex.has_char. cbn [Py.contains prefix].
  destruct (ascii_dec c d) as [-> | Hne].
  - rewrite Ascii.eqb_refl. destruct s; reflexivity.
  - apply Ascii.eqb_neq in Hne. rewrite Hne. reflexivity.
Qed.

Lemma has_char_append (c : ascii) (s t : string) :
  Regex.has_char c (s ++ t)%string = Regex.has_char c s || Regex.has_char c t.
Proof.
  induction s as [|d s IH]; simpl.
  - reflexivity.
  - rewrite !has_char_cons, IH. now rewrite orb_assoc.
Qed.

Lemma has_paren_plain (s : string) :
  plain s = true -> Regex.has_char "(" s = false.
Proof.
  induction s as [|c s IH]; intros H; [reflexivity |].
  cbn [plain] in H. apply andb_true_iff in H. destruct H as [Hc Hs].
  rewrite has_char_cons, (IH Hs), orb_false_r.
  apply plain_char_ordinary in Hc. apply orb_false_iff in Hc. destruct Hc as [Hsp _].
  unfold Regex.is_special in Hsp.
  rewrite (Ascii.eqb_sym "(" c).
  destruct (Ascii.eqb c "("); [| reflexivity].
  rewrite !orb_true_r in Hsp. simpl in Hsp. rewrite ?orb_true_r in Hsp. discriminate.
Qed.

(** The pattern [^s$] of a plain text compiles, whatever the
    environment, to the caseless comparison with [s]. *)
Lemma compile_plain (other : string -> result (string -> bool)) (s : string) :
  plain s = true ->
  Regex.compile other ("^" ++ s ++ "$")%string = Return (Regex.search_anchored (lit_items s)).
Proof.
  intros H. unfold Regex.compile.
  assert (Hp : Regex.missing_close_paren ("^" ++ s ++ "$")%string = false).
  { unfold Regex.missing_close_paren.
    change ("^" ++ s ++ "$")%string with (String "^" (s ++ "$")%string).
    rewrite has_char_cons, has_char_append, (has_paren_plain s H). reflexivity. }
  rewrite Hp, anchored_body_anchored, (parse_items_plain s H). reflexivity.
Qed.

Lemma caseless_eq_refl (s : string) : caseless_eq s s = true.
Proof. unfold caseless_eq. apply String.eqb_refl. Qed.

Lemma caseless_match_refl (s : string) : caseless_match s s = true.
Proof. unfold caseless_match. now rewrite caseless_eq_refl. Qed.

(* ------------------------------------------------------------------ *)
(** ** Deduplication against the store *)

Lemma find_ext {A : Type} (f g : A -> bool) (l : list A) :
  (forall x, f x = g x) -> find f l = find g l.
Proof.
  intros H; induction l as [|x l IH]; simpl; [reflexivity |].
  rewrite H, IH; reflexivity.
Qed.

Lemma find_app_found {A : Type} (f : A -> bool) (l l' : list A) :
  find f l <> None -> find f (l ++ l') <> None.
Proof.
  induction l as [|x l IH]; simpl; [congruence |].
  destruct (f x); [congruence | exact IH].
Qed.

Lemma find_present {A : Type} (f : A -> bool) (l : list A) (x : A) :
  In x l -> f x = true -> find f l <> None.
Proof.
  intros Hin Hf Hnone. rewrite (find_none f l Hnone x Hin) in Hf. discriminate.
Qed.

Section Dedup.

Variable env : Env.
Variable city : string.
Variable exams : list string.
Hypothesis city_plain : plain city = true.

Lemma lookup_existing_plain (c : Collection) (doc : Coaching.t) :
  plain (Coaching.name doc) = true ->
  lookup_existing env c doc city = Return (lookup_plain c doc city).
Proof.
  intros Hn. unfold lookup_existing, lookup_plain, find_one_by_name_city.
  rewrite (compile_plain _ _ Hn), (compile_plain _ _ city_plain). cbn [bind].
  destruct (match Coaching.website doc with
            | Some w => if Py.truthy w then find_one_by_website c w else None
            | None => None
            end); [reflexivity |].
  f_equal. apply find_ext. intros d. now rewrite !search_anchored_lit.
Qed.

Lemma lookup_plain_grows (c t : Collection) (doc : Coaching.t) :
  lookup_plain c doc city <> None -> lookup_plain (c ++ t) doc city <> None.
Proof.
  unfold lookup_plain, find_one_by_website, docs. rewrite map_app.
  destruct (Coaching.website doc) as [w|]; [destruct (Py.truthy w) |].
  - set (f := fun d : Coaching.t => match Coaching.website d with
                               | Some w' => String.eqb w' w
                               | None => false
                               end).
    destruct (find f (map snd c)) eqn:E1.
    + intros _. pose proof (find_app_found f (map snd c) (map snd t)) as H.
      rewrite E1 in H. destruct (find f (map snd c ++ map snd t)); [discriminate |].
      exfalso. apply H; congruence.
    + intros H. destruct (find f (map snd c ++ map snd t)); [discriminate |].
      now apply find_app_found.
  - apply find_app_found.
  - apply find_app_found.
Qed.

Lemma lookup_plain_self (c : Collection) (doc : Coaching.t) :
  In doc (docs c) -> Coaching.city doc = city -> lookup_plain c doc city <> None.
Proof.
  intros Hin Hcity. unfold lookup_plain, find_one_by_website.
  assert (Hnc : find (fun d => caseless_match (Coaching.name doc) (Coaching.name d)
                               && caseless_match city (Coaching.city d)) (docs c) <> None).
  { apply (find_present _ _ doc Hin).
    rewrite Hcity, !caseless_match_refl. reflexivity. }
  destruct (Coaching.website doc) as [w|] eqn:Hw; [destruct (Py.truthy w) |]; try exact Hnc.
  set (f := fun d : Coaching.t => match Coaching.website d with
                             | Some w' => String.eqb w' w
                             | None => false
                             end).
  assert (Hf : find f (docs c) <> None).
  { apply (find_present _ _ doc Hin). unfold f. rewrite Hw. apply String.eqb_refl. }
  destruct (find f (docs c)); [discriminate | congruence].
Qed.

(** X12. With a plain name and a plain city the look-up finds a record
    exactly when the store holds one with the website of the draft, or one
    whose name and city are those of the draft up to case (and up to a
    final newline, before which [$] holds as well). *)
Lemma lookup_existing_plain_iff (c : Collection) (doc : Coaching.t) :
  plain (Coaching.name doc) = true ->
  exists r,
    lookup_existing env c doc city = Return r /\
    (r <> None <->
     exists d, In d (docs c) /\
       ((exists w, Coaching.website doc = Some w /\ Py.truthy w = true
                   /\ Coaching.website d = Some w)
        \/ (caseless_match (Coaching.name doc) (Coaching.name d) = true
            /\ caseless_match city (Coaching.city d) = true))).
Proof.
  intros Hn. exists (lookup_plain c doc city).
  split; [now apply lookup_existing_plain |].
  unfold lookup_plain, find_one_by_website.
  set (g := fun d : Coaching.t => caseless_match (Coaching.name doc) (Coaching.name d)
                             && caseless_match city (Coaching.city d)).
  assert (Hg : find g (docs c) <> None <->
               exists d, In d (docs c) /\
                 caseless_match (Coaching.name doc) (Coaching.name d) = true
                 /\ caseless_match city (Coaching.city d) = true).
  { split.
    - destruct (find g (docs c)) as [d|] eqn:E; [intros _ | congruence].
      apply find_some in E. destruct E as [Hin Hd]. unfold g in Hd.
      apply andb_true_iff in Hd. now exists d.
    - intros [d [Hin [H1 H2]]]. apply (find_present g _ d Hin).
      unfold g. now rewrite H1, H2. }
  destruct (Coaching.website doc) as [w|] eqn:Hw.
  - destruct (Py.truthy w) eqn:Ht.
    + set (f := fun d : Coaching.t => match Coaching.website d with
                                 | Some w' => String.eqb w' w
                                 | None => false
                                 end).
      destruct (find f (docs c)) as [d|] eqn:E.
      * split; [intros _ | discriminate].
        apply find_some in E. destruct E as [Hin Hd]. unfold f in Hd.
        exists d. split; [exact Hin |]. left. exists w.
        destruct (Coaching.website d) as [w'|]; [| discriminate].
        apply String.eqb_eq in Hd. subst w'. auto.
      * rewrite Hg. split.
        { intros [d [Hin H]]. exists d. tauto. }
        { intros [d [Hin [[w' [Hw' [_ Hd]]] | H]]]; [| exists d; tauto].
          injection Hw' as <-. exfalso.
          pose proof (find_none f _ E d Hin) as Hf. unfold f in Hf.
          rewrite Hd, String.eqb_refl in Hf. discriminate. }
    + rewrite Hg. split.
      * intros [d [Hin H]]. exists d. tauto.
      * intros [d [Hin [[w' [Hw' [Ht' _]]] | H]]]; [| exists d; tauto].
        injection Hw' as <-. congruence.
  - rewrite Hg. split.
    + intros [d [Hin H]]. exists d. tauto.
    + intros [d [Hin [[w' [Hw' _]] | H]]]; [discriminate | exists d; tauto].
Qed.

(** The collection only grows. *)
Lemma ingest_extends (links : list string) :
  forall c created seen,
  exists t, fst (ingest env city exams links c created seen) = c ++ t.
Proof.
  induction links as [|link rest IH]; intros c created seen; simpl.
  - exists []; now rewrite app_nil_r.
  - destruct (mem _ seen); [apply IH |].
    destruct (lookup_existing env c _ city) as [[d|]|e]; simpl;
      try apply IH; [| exists []; now rewrite app_nil_r].
    destruct (insert_rejected env _); [apply IH |].
    destruct (IH (insert_one c (draft env city exams link
                                  (_extract_basic_page_info env link)))
                 (S created)
                 (dedup_key (_extract_basic_page_info env link) link :: seen)) as [t Ht].
    exists ((new_id c, draft env city exams link (_extract_basic_page_info env link)) :: t).
    rewrite Ht. unfold insert_one. now rewrite <- app_assoc.
Qed.

(** With plain names the loop ends without an exception. *)
Lemma ingest_plain_returns (links : list string) :
  names_plain env city exams links ->
  forall c created seen,
  exists n, snd (ingest env city exams links c created seen) = Return n.
Proof.
  induction links as [|link rest IH]; intros Hp c created seen; simpl.
  - now exists created.
  - assert (Hrest : names_plain env city exams rest).
    { intros l Hl. apply Hp. now right. }
    destruct (mem _ seen); [now apply IH |].
    rewrite lookup_existing_plain by (apply Hp; now left).
    destruct (lookup_plain c _ city); [now apply IH |].
    destruct (insert_rejected env _); now apply IH.
Qed.

(** Going through the same candidates again, on a collection that holds
    what the first pass left, inserts nothing. *)
Lemma ingest_again (links : list string) :
  names_plain env city exams links ->
  forall c created seen C t n,
  C = fst (ingest env city exams links c created seen) ++ t ->
  ingest env city exams links C n seen = (C, Return n).
Proof.
  induction links as [|link rest IH]; intros Hp c created seen C t n HC;
    [reflexivity |].
  assert (Hrest : names_plain env city exams rest).
  { intros l Hl. apply Hp. now right. }
  assert (Hname : plain (Coaching.name (draft env city exams link
                                     (_extract_basic_page_info env link))) = true).
  { apply Hp. now left. }
  cbn [ingest] in *.
  set (info := _extract_basic_page_info env link) in *.
  set (doc := draft env city exams link info) in *.
  destruct (mem (dedup_key info link) seen).
  { eapply IH; eauto. }
  set (seen' := dedup_key info link :: seen) in *.
  rewrite (lookup_existing_plain c doc Hname) in HC.
  rewrite (lookup_existing_plain C doc Hname).
  destruct (lookup_plain c doc city) as [d|] eqn:Hc.
  - (* found in the first pass *)
    destruct (ingest_extends rest c created seen') as [t' Ht'].
    assert (Hfound : lookup_plain C doc city <> None).
    { rewrite HC, Ht', <- app_assoc. apply lookup_plain_grows. congruence. }
    destruct (lookup_plain C doc city); [| congruence].
    eapply IH; eauto.
  - destruct (insert_rejected env doc) eqn:Hrej.
    + (* the write is rejected in both passes *)
      destruct (lookup_plain C doc city); eapply IH; eauto.
    + (* inserted in the first pass *)
      destruct (ingest_extends rest (insert_one c doc) (S created) seen') as [t' Ht'].
      assert (Hfound : lookup_plain C doc city <> None).
      { apply lookup_plain_self; [| reflexivity].
        rewrite HC, Ht'. unfold insert_one, docs. rewrite !map_app.
        apply in_or_app; left. apply in_or_app; left. apply in_or_app; right.
        now left. }
      destruct (lookup_plain C doc city); [| congruence].
      eapply IH; eauto.
Qed.

End Dedup.

(* ------------------------------------------------------------------ *)
(** ** The coordinator as a whole *)


Section CrawlFacts.

Variable env : Env.

(** A failed request and a blocked response give no candidates. *)
Lemma search_absorbs_failures (query : string) (limit : Z) :
  (requests_get env (search_url query) = ConnectionError ->
   _ddg_search_urls env query limit = [])
  /\ (forall code text,
        requests_get env (search_url query) = Response code text ->
        status_is_error code = true ->
        _ddg_search_urls env query limit = []).
Proof.
  unfold _ddg_search_urls; split.
  - intros ->; reflexivity.
  - intros code text -> ->; reflexivity.
Qed.

(** A failed request leaves the record as it was before the request. *)
Lemma extract_absorbs_failure (link : string) :
  requests_get env link = ConnectionError ->
  _extract_basic_page_info env link = info_before_fetch link.
Proof. unfold _extract_basic_page_info; intros ->; reflexivity. Qed.

Lemma crawl_store_unavailable (payload : CrawlRequest.t) :
  crawl_and_ingest env None payload
  = (None, Raise (HTTPException 500 "Database not available")).
Proof. reflexivity. Qed.

Lemma crawl_city_required (c : Collection) (payload : CrawlRequest.t) :
  Py.strip (CrawlRequest.city payload) = "" ->
  crawl_and_ingest env (Some c) payload
  = (Some c, Raise (HTTPException 400 "City is required")).
Proof. unfold crawl_and_ingest; intros ->; reflexivity. Qed.


(** With a plain city and plain names the batch runs to its end. *)
Lemma crawl_plain_returns (c : Collection) (payload : CrawlRequest.t) :
  let city := Py.strip (CrawlRequest.city payload) in
  let exams := default [] (CrawlRequest.exams payload) in
  let collected :=
    fst (collect (_ddg_search_urls env) city exams (CrawlRequest.limit payload)) in
  Py.truthy city = true ->
  plain city = true ->
  names_plain env city exams collected ->
  exists created,
    snd (crawl_and_ingest env (Some c) payload)
    = Return (CrawlResponse.mk true created (List.length collected)).
Proof.
  intros city exams collected Hcity Hplain Hnames.
  unfold crawl_and_ingest. fold city. rewrite Hcity. cbn [negb].
  change (match CrawlRequest.exams payload with Some l => l | None => [] end) with exams.
  fold collected.
  destruct (ingest_plain_returns env city exams Hplain collected Hnames c 0 [])
    as [n Hn].
  destruct (ingest env city exams collected c 0 []) as [c' r]; simpl in *.
  subst r. now exists n.
Qed.

(** X11. With a plain city and plain names a second crawl on the
    collection left by the first creates nothing and changes nothing. *)
Lemma crawl_twice_plain (c : Collection) (payload : CrawlRequest.t) :
  let city := Py.strip (CrawlRequest.city payload) in
  let exams := default [] (CrawlRequest.exams payload) in
  let collected :=
    fst (collect (_ddg_search_urls env) city exams (CrawlRequest.limit payload)) in
  Py.truthy city = true ->
  plain city = true ->
  names_plain env city exams collected ->
  let db1 := fst (crawl_and_ingest env (Some c) payload) in
  crawl_and_ingest env db1 payload
  = (db1, Return (CrawlResponse.mk true 0 (List.length collected))).
Proof.
  intros city exams collected Hcity Hplain Hnames db1.
  unfold db1, crawl_and_ingest. fold city. rewrite Hcity. cbn [negb].
  change (match CrawlRequest.exams payload with Some l => l | None => [] end) with exams.
  fold collected.
  pose proof (ingest_again env city exams Hplain collected Hnames c 0 [] _ [] 0
                (eq_sym (app_nil_r _))) as H.
  destruct (ingest env city exams collected c 0 []) as [c1 r1]; simpl in *.
  rewrite H. reflexivity.
Qed.

End CrawlFacts.

(** C1 at a store holding "A+ Classes" of Delhi and a candidate of
    another site with the same title: the store holds a record with the
    same name and the same city, the look-up finds none, and the crawl
    inserts a second record of that name and city. *)
Theorem dedup_misses_same_name :
  forall other,
    let env := env_of_web other (web_aplus "https://aplusclasses.example.org/") in
    let existing := lead_aplus (Some "https://aplus.example.com/") in
    let cand := lead_aplus (Some "https://aplusclasses.example.org/") in
    let c0 := [(0%N, existing)] in
    store_holds_match c0 cand "Delhi" = true
    /\ lookup_existing env c0 cand "Delhi" = Return None
    /\ crawl_and_ingest env (Some c0) crawl_delhi_1
       = (Some [(0%N, existing); (1%N, cand)], Return (CrawlResponse.mk true 1 1)).
Proof. intros other. vm_compute. repeat split. Qed.

(** C2 at a candidate without website (its URL contains "google.")
    titled "A+ Classes": the first crawl on the empty store creates one
    record, and the second crawl, on the store the first one left,
    creates one more. *)
Theorem second_crawl_creates_again :
  forall other,
    let link := "https://sites.google.com/view/aplus" in
    let env := env_of_web other (web_aplus link) in
    let first := crawl_and_ingest env (Some []) crawl_delhi_1 in
    first = (Some [(0%N, lead_aplus None)], Return (CrawlResponse.mk true 1 1))
    /\ crawl_and_ingest env (fst first) crawl_delhi_1
       = (Some [(0%N, lead_aplus None); (1%N, lead_aplus None)],
          Return (CrawlResponse.mk true 1 1)).
Proof. intros other. vm_compute. repeat split. Qed.

(** C6 at a candidate titled "Best Coaching (Delhi": the store is
    available, the city is not empty, and the crawl ends with the
    exception of the store look-up. *)
Theorem crawl_raises_on_candidate_name :
  forall other,
    let env := env_of_web other web_open_paren in
    Py.strip (CrawlRequest.city crawl_delhi_1) = "Delhi"
    /\ crawl_and_ingest env (Some []) crawl_delhi_1
       = (Some [],
          Raise (OperationFailure
                   "Regular expression is invalid: missing closing parenthesis")).
Proof. intros other. vm_compute. repeat split. Qed.

(* ------------------------------------------------------------------ *)
(** ** Instances *)

Lemma search_provider_dedup_by_domain_witness :
  let env := env_of_web other_unmatched web_two_domains in
  let query := "coaching institute Pune" in
  let out := _ddg_search_urls env query 5 in
  let links := page_links (parse_html env (search_url query)) 5 in
  (0 < 5)%Z /\
  (Z.of_nat (List.length out) <= 5)%Z /\
  NoDup (map (netloc env) out) /\
  subseq out links /\
  In "https://beta.example.com/" out.
Proof.
  intros env query out links.
  destruct (search_provider_dedup_by_domain env query 5 eq_refl) as [Hlen [Hnd Hpage]].
  destruct (Hpage 200%Z (search_url query) eq_refl eq_refl) as [Hsub Hfirst].
  split; [reflexivity |]. split; [exact Hlen |]. split; [exact Hnd |].
  split; [exact Hsub |].
  apply (Hfirst [ "https://alpha.example.com/a"; "https://alpha.example.com/b" ]
                "https://beta.example.com/" []); [reflexivity |].
  intros x [<- | [<- | []]]; vm_compute; discriminate.
Defined.

Lemma ten_urls_NoDup : NoDup ten_urls.
Proof.
  unfold ten_urls.
  repeat (constructor; [simpl; intuition discriminate |]). constructor.
Defined.

Lemma collect_short_circuit_witness :
  ((0 < 3)%Z /\
   let queries := firstn 5 (build_queries "Pune" []) in
   let k := Z.max 5 (3 / 2) in
   let results := fun n => List.concat (map (fun q => search_ten q k) (firstn n queries)) in
   let out := collect search_ten "Pune" [] 3 in
   exists n, 0 < n <= List.length queries /\
     snd out = map (fun q => (q, k)) (firstn n queries) /\
     fst out = firstn (Z.to_nat 3) (merged [] (results n)) /\
     NoDup (fst out) /\
     (Z.of_nat (List.length (fst out)) <= 3)%Z /\
     (forall j, j < n -> (Z.of_nat (List.length (merged [] (results j))) < 3)%Z) /\
     (n < List.length queries -> Z.of_nat (List.length (fst out)) = 3%Z))
  /\
  (search_ten "coaching institute Pune" 5%Z = ten_urls /\
   List.length ten_urls = 10 /\
   NoDup ten_urls /\
   collect search_ten "Pune" [] 3
   = (firstn 3 ten_urls, [ ("coaching institute Pune", 5%Z) ])).
Proof.
  split.
  - split; [reflexivity |].
    apply (proj1 collect_short_circuit search_ten "Pune" [] 3%Z). reflexivity.
  - split; [reflexivity |]. split; [reflexivity |]. split; [exact ten_urls_NoDup |].
    apply (proj2 collect_short_circuit search_ten "Pune" [] ten_urls);
      [reflexivity | reflexivity | exact ten_urls_NoDup].
Defined.

(* ================================================================== *)
(** * Further properties of the endpoints *)

(* ------------------------------------------------------------------ *)
(** ** Page extractor: name, address, maps link, phone *)

Lemma take_truthy (n : nat) (s : string) :
  Py.truthy s = true -> 1 <= String.length (Py.take (S n) s).
Proof. destruct s; simpl; [discriminate | lia]. Qed.

Lemma fill_from_soup_name (soup : Soup) (info : Info.t) :
  Info.name (fill_from_soup soup info)
  = match content_of (find_tag "meta" "property" "og:title" soup) with
    | Some c => Some (Py.take 120 c)
    | None =>
        match page_title soup with
        | Some t => if Py.truthy t then Some (Py.take 120 t) else Info.name info
        | None => Info.name info
        end
    end.
Proof.
  unfold fill_from_soup.
  repeat match goal with
         | |- context [match ?x with _ => _ end] => destruct x
         end; reflexivity.
Qed.

Lemma fill_from_soup_address (soup : Soup) (info : Info.t) :
  Info.address (fill_from_soup soup info) = Info.address info.
Proof.
  unfold fill_from_soup.
  repeat match goal with
         | |- context [match ?x with _ => _ end] => destruct x
         end; reflexivity.
Qed.

Lemma fill_from_soup_google_maps_url (soup : Soup) (info : Info.t) :
  Info.google_maps_url (fill_from_soup soup info) = Info.google_maps_url info.
Proof.
  unfold fill_from_soup.
  repeat match goal with
         | |- context [match ?x with _ => _ end] => destruct x
         end; reflexivity.
Qed.

Lemma fill_from_soup_phone (soup : Soup) (info : Info.t) :
  Info.phone (fill_from_soup soup info)
  = match find_tel soup with
    | Some tg =>
        match Tag.get tg "href" with
        | Some h => Some (Py.strip (Py.replace "tel:" "" h))
        | None => Info.phone info
        end
    | None => Info.phone info
    end.
Proof.
  unfold fill_from_soup.
  repeat match goal with
         | |- context [match ?x with _ => _ end] => destruct x
         end; reflexivity.
Qed.

Lemma info_before_fetch_fields (link : string) :
  Info.name (info_before_fetch link) = None
  /\ Info.address (info_before_fetch link) = None
  /\ Info.phone (info_before_fetch link) = None
  /\ Info.google_maps_url (info_before_fetch link)
     = if Py.contains "google.com/maps" link || Py.contains "goo.gl/maps" link
       then Some link else None.
Proof. unfold info_before_fetch. destruct (_ || _); repeat split. Qed.

(** X1. On a fetched page the name is the social-preview title when that
    tag has a content, whatever the document title, and otherwise the
    stripped document title; a name that is set has between 1 and 120
    characters.  A failed request leaves the name absent. *)
Theorem extracted_name_social_title_first :
  forall env link,
    Info.name (_extract_basic_page_info env link)
    = match requests_get env link with
      | ConnectionError => None
      | Response _ html =>
          let soup := parse_html env html in
          match content_of (find_tag "meta" "property" "og:title" soup) with
          | Some c => Some (Py.take 120 c)
          | None =>
              match page_title soup with
              | Some t => if Py.truthy t then Some (Py.take 120 t) else None
              | None => None
              end
          end
      end
    /\ match Info.name (_extract_basic_page_info env link) with
       | Some n => 1 <= String.length n <= 120
       | None => True
       end.
Proof.
  intros env link.
  destruct (info_before_fetch_fields link) as [Hn _].
  unfold _extract_basic_page_info.
  destruct (requests_get env link) as [|code html].
  - rewrite Hn. split; [reflexivity | exact I].
  - rewrite fill_from_soup_name, Hn. cbv zeta. split; [reflexivity |].
    destruct (content_of (find_tag "meta" "property" "og:title" (parse_html env html)))
      as [c|] eqn:Hc.
    + split; [| apply take_length].
      apply take_truthy. unfold content_of in Hc.
      destruct (find_tag _ _ _ _); [| discriminate].
      destruct (Tag.get _ _) as [c'|]; [| discriminate].
      destruct (Py.truthy c') eqn:Ht; [| discriminate].
      now injection Hc as <-.
    + destruct (page_title (parse_html env html)) as [t|]; [| exact I].
      destruct (Py.truthy t) eqn:Ht; [| exact I].
      split; [now apply take_truthy | apply take_length].
Qed.

(** X2. The extractor never sets the address; after a failed request
    the name, the phone and the description are absent as well. *)
Theorem extractor_address_never_set :
  forall env link,
    Info.address (_extract_basic_page_info env link) = None
    /\ match requests_get env link with
       | ConnectionError =>
           Info.name (_extract_basic_page_info env link) = None
           /\ Info.phone (_extract_basic_page_info env link) = None
           /\ Info.description (_extract_basic_page_info env link) = None
       | Response _ _ => True
       end.
Proof.
  intros env link.
  destruct (info_before_fetch_fields link) as [Hn [Ha [Hp _]]].
  unfold _extract_basic_page_info.
  destruct (requests_get env link) as [|code html].
  - repeat split; auto. apply info_before_fetch_description.
  - rewrite fill_from_soup_address. auto.
Qed.

Lemma prefix_append_l (a b s : string) :
  prefix (a ++ b)%string s = true -> prefix a s = true.
Proof.
  revert s; induction a as [|x a IH]; intros s.
  - intros _. destruct s; reflexivity.
  - destruct s as [|y s]; simpl; [discriminate |].
    destruct (ascii_dec x y); [apply IH | discriminate].
Qed.

Lemma contains_append_l (a b s : string) :
  Py.contains (a ++ b)%string s = true -> Py.contains a s = true.
Proof.
  induction s as [|c s IH]; cbn [Py.contains]; intros H.
  - rewrite orb_false_r in *. now apply prefix_append_l with b.
  - apply orb_true_iff in H. apply orb_true_iff.
    destruct H as [H | H]; [left; now apply prefix_append_l with b | right; auto].
Qed.

(** X3. The maps link is the input URL exactly when the URL contains
    "google.com/maps" or "goo.gl/maps", whatever the page holds; a URL
    containing "google.com/maps" gets the maps link and no website. *)
Theorem maps_link_rule :
  forall env link,
    Info.google_maps_url (_extract_basic_page_info env link)
    = (if Py.contains "google.com/maps" link || Py.contains "goo.gl/maps" link
       then Some link else None)
    /\ (if Py.contains "google.com/maps" link
        then Info.website (_extract_basic_page_info env link) = None
             /\ Info.google_maps_url (_extract_basic_page_info env link) = Some link
        else True).
Proof.
  intros env link.
  assert (Hm : Info.google_maps_url (_extract_basic_page_info env link)
               = if Py.contains "google.com/maps" link || Py.contains "goo.gl/maps" link
                 then Some link else None).
  { destruct (info_before_fetch_fields link) as [_ [_ [_ Hg]]].
    unfold _extract_basic_page_info.
    destruct (requests_get env link); [| rewrite fill_from_soup_google_maps_url]; exact Hg. }
  split; [exact Hm |].
  destruct (Py.contains "google.com/maps" link) eqn:Hc; [| exact I].
  split; [| rewrite Hm; reflexivity].
  assert (Hg : Py.contains "google." link = true)
    by (apply (contains_append_l "google." "com/maps"); exact Hc).
  unfold _extract_basic_page_info.
  destruct (requests_get env link); [| rewrite fill_from_soup_website];
    rewrite info_before_fetch_website, Hg; reflexivity.
Qed.

Lemma lstrip_fixed (s : string) :
  match s with
  | EmptyString => True
  | String c _ => Py.is_space c = false
  end ->
  Py.lstrip s = s.
Proof. destruct s as [|c s]; simpl; [reflexivity | intros ->; reflexivity]. Qed.

Lemma lstrip_head (s : string) :
  match Py.lstrip s with
  | EmptyString => True
  | String c _ => Py.is_space c = false
  end.
Proof.
  induction s as [|c s IH]; simpl; [exact I |].
  destruct (Py.is_space c) eqn:E; [exact IH | exact E].
Qed.

Lemma rstrip_head (s : string) :
  match s with
  | EmptyString => True
  | String c _ => Py.is_space c = false
  end ->
  match Py.rstrip s with
  | EmptyString => True
  | String c _ => Py.is_space c = false
  end.
Proof.
  destruct s as [|c s]; simpl; [auto |].
  intros Hc. destruct (Py.rstrip s); [rewrite Hc |]; exact Hc.
Qed.

Lemma rstrip_idempotent (s : string) : Py.rstrip (Py.rstrip s) = Py.rstrip s.
Proof.
  induction s as [|c s IH]; [reflexivity |].
  cbn [Py.rstrip]. destruct (Py.rstrip s) as [|d r] eqn:E.
  - destruct (Py.is_space c) eqn:Hc; [reflexivity |].
    cbn [Py.rstrip]. now rewrite Hc.
  - cbn [Py.rstrip] in *. rewrite IH. reflexivity.
Qed.

(** Stripping twice is stripping once. *)
Lemma strip_idempotent (s : string) : Py.strip (Py.strip s) = Py.strip s.
Proof.
  unfold Py.strip.
  rewrite (lstrip_fixed (Py.rstrip (Py.lstrip s))).
  - apply rstrip_idempotent.
  - apply rstrip_head, lstrip_head.
Qed.

(** X4. The phone, when set, comes from the first telephone link of the
    page and carries no white space at either end; without such a link,
    and after a failed request, it is absent. *)
Theorem extracted_phone_stripped :
  forall env link,
    match Info.phone (_extract_basic_page_info env link) with
    | Some p =>
        Py.strip p = p
        /\ exists code html tg h,
             requests_get env link = Response code html
             /\ find_tel (parse_html env html) = Some tg
             /\ Tag.get tg "href" = Some h
             /\ Py.startswith "tel:" h = true
             /\ p = Py.strip (Py.replace "tel:" "" h)
    | None => True
    end.
Proof.
  intros env link.
  destruct (info_before_fetch_fields link) as [_ [_ [Hp _]]].
  unfold _extract_basic_page_info.
  destruct (requests_get env link) as [|code html]; [now rewrite Hp |].
  rewrite fill_from_soup_phone, Hp.
  destruct (find_tel (parse_html env html)) as [tg|] eqn:Ht; [| exact I].
  destruct (Tag.get tg "href") as [h|] eqn:Hh; [| exact I].
  split; [apply strip_idempotent |].
  exists code, html, tg, h. repeat split; auto.
  unfold find_tel in Ht. apply find_some in Ht. destruct Ht as [_ Ht].
  rewrite Hh in Ht. apply andb_true_iff in Ht. destruct Ht as [_ Ht].
  apply andb_true_iff in Ht. tauto.
Qed.

(* ------------------------------------------------------------------ *)
(** ** Search provider: origin of the links, selector precedence, bound *)

Section SearchOrigin.

Variable env : Env.

Lemma collect_links_origin (limit : Z) (anchors : list Tag.t) :
  forall links u,
  In u (collect_links limit links anchors) ->
  In u links \/
  (Py.startswith "http" u = true /\
   exists tg, In tg anchors /\ Tag.get tg "href" = Some u).
Proof.
  induction anchors as [|a rest IH]; intros links u; simpl; [auto |].
  set (links' := match Tag.get a "href" with
                 | Some h => if is_http_href (Tag.get a "href") then links ++ [h] else links
                 | None => links
                 end).
  assert (Hl : forall x, In x links' ->
               In x links \/ (Py.startswith "http" x = true /\ Tag.get a "href" = Some x)).
  { unfold links'. intros x. destruct (Tag.get a "href") as [h|] eqn:Hh; [| auto].
    destruct (is_http_href (Some h)) eqn:Hhttp; [| auto].
    rewrite in_app_iff. intros [H | [<- | []]]; [auto |].
    right. split; [| reflexivity]. simpl in Hhttp.
    apply andb_true_iff in Hhttp. tauto. }
  intros Hin.
  assert (Hu : In u links' \/
               (Py.startswith "http" u = true /\
                exists tg, In tg rest /\ Tag.get tg "href" = Some u)).
  { destruct (limit <=? _)%Z; [auto | apply IH, Hin]. }
  destruct Hu as [Hu | [Hh [tg [Htg Hget]]]].
  - destruct (Hl u Hu) as [H | [Hh Hget]]; [auto |].
    right. split; [exact Hh |]. exists a. split; [now left | exact Hget].
  - right. split; [exact Hh |]. exists tg. split; [now right | exact Hget].
Qed.

Lemma dedup_domains_origin (limit : Z) (links : list string) :
  forall seen uniq u,
  In u (dedup_domains env limit seen uniq links) -> In u uniq \/ In u links.
Proof.
  induction links as [|l rest IH]; intros seen uniq u; simpl; [auto |].
  set (fresh := negb (mem (netloc env l) seen)).
  assert (Hq : forall x, In x (if fresh then uniq ++ [l] else uniq) ->
               In x uniq \/ l = x).
  { intros x. destruct fresh; [rewrite in_app_iff; simpl; tauto | auto]. }
  intros Hin.
  assert (Hu : In u (if fresh then uniq ++ [l] else uniq) \/ In u rest).
  { destruct (limit <=? _)%Z; [auto | apply IH in Hin; exact Hin]. }
  destruct Hu as [Hu | Hu]; [destruct (Hq u Hu); auto | auto].
Qed.

Lemma dedup_domains_length (limit : Z) (links : list string) :
  forall seen uniq,
  List.length (dedup_domains env limit seen uniq links)
  <= List.length uniq + List.length links.
Proof.
  induction links as [|l rest IH]; intros seen uniq; simpl; [lia |].
  set (fresh := negb (mem (netloc env l) seen)).
  assert (Hq : List.length (if fresh then uniq ++ [l] else uniq) <= S (List.length uniq)).
  { destruct fresh; [rewrite length_app; simpl |]; lia. }
  destruct (limit <=? _)%Z; [lia |].
  etransitivity; [apply IH | lia].
Qed.

(** Whatever the limit, the loop over the anchors keeps at most
    max(1, limit) links. *)
Lemma collect_links_bound (limit : Z) (anchors : list Tag.t) :
  forall links,
  (Z.of_nat (List.length links) < Z.max 1 limit)%Z ->
  (Z.of_nat (List.length (collect_links limit links anchors)) <= Z.max 1 limit)%Z.
Proof.
  induction anchors as [|a rest IH]; intros links H; simpl; [lia |].
  set (links' := match Tag.get a "href" with
                 | Some h => if is_http_href (Tag.get a "href") then links ++ [h] else links
                 | None => links
                 end).
  assert (Hl : List.length links' <= S (List.length links)).
  { unfold links'. destruct (Tag.get a "href"); [| lia].
    destruct (is_http_href _); [rewrite length_app; simpl |]; lia. }
  destruct (Z.leb_spec limit (Z.of_nat (List.length links'))); [lia |].
  apply IH; lia.
Qed.

Lemma collect_links_nonempty (limit : Z) (anchors : list Tag.t) :
  (0 < limit)%Z ->
  forall links,
  links <> [] \/ existsb (fun tg => is_http_href (Tag.get tg "href")) anchors = true ->
  collect_links limit links anchors <> [].
Proof.
  intros Hpos. induction anchors as [|a rest IH]; intros links H; simpl.
  - destruct H as [H | H]; [exact H | discriminate].
  - set (links' := match Tag.get a "href" with
                   | Some h => if is_http_href (Tag.get a "href") then links ++ [h] else links
                   | None => links
                   end).
    assert (Hl : links' <> [] \/
                 existsb (fun tg => is_http_href (Tag.get tg "href")) rest = true).
    { unfold links'. destruct H as [H | H].
      - left. destruct (Tag.get a "href"); [| exact H].
        destruct (is_http_href _); [| exact H].
        intros E. apply app_eq_nil in E. tauto.
      - simpl in H. apply orb_true_iff in H. destruct H as [H | H]; [| now right].
        left. destruct (Tag.get a "href") as [h|]; [| discriminate].
        rewrite H. intros E. apply app_eq_nil in E. destruct E; discriminate. }
    destruct (Z.leb_spec limit (Z.of_nat (List.length links'))) as [Hle | Hlt].
    + intros E. rewrite E in Hle. simpl in Hle. lia.
    + apply IH, Hl.
Qed.

End SearchOrigin.

(** X5. Every URL the search provider returns begins with "http" and is
    the [href] of an anchor of the fetched result page; after a failed
    request nothing is returned. *)
Theorem search_results_are_http_links :
  forall env query limit,
    match requests_get env (search_url query) with
    | ConnectionError => _ddg_search_urls env query limit = []
    | Response code text =>
        Forall (fun u =>
                  Py.startswith "http" u = true
                  /\ exists tg, In tg (parse_html env text)
                                /\ Tag.name tg = "a"
                                /\ Tag.get tg "href" = Some u)
               (_ddg_search_urls env query limit)
    end.
Proof.
  intros env query limit. unfold _ddg_search_urls.
  destruct (requests_get env (search_url query)) as [|code text]; [reflexivity |].
  destruct (status_is_error code); [constructor |].
  apply Forall_forall. intros u Hu.
  unfold search_results in Hu. apply dedup_domains_origin in Hu.
  destruct Hu as [[] | Hu].
  assert (Ha : forall anchors,
             (forall tg, In tg anchors -> In tg (parse_html env text) /\ Tag.name tg = "a") ->
             In u (collect_links limit [] anchors) ->
             Py.startswith "http" u = true
             /\ exists tg, In tg (parse_html env text)
                           /\ Tag.name tg = "a" /\ Tag.get tg "href" = Some u).
  { intros anchors Hsub Hin. apply collect_links_origin in Hin.
    destruct Hin as [[] | [Hh [tg [Htg Hget]]]].
    split; [exact Hh |]. exists tg. destruct (Hsub tg Htg). auto. }
  unfold page_links in Hu.
  destruct (collect_links limit [] (select_result_a (parse_html env text))) eqn:E.
  - apply (Ha (find_all_a (parse_html env text))); [| exact Hu].
    intros tg Htg. unfold find_all_a in Htg. apply filter_In in Htg.
    destruct Htg as [Hin Hn]. split; [exact Hin | now apply String.eqb_eq].
  - rewrite <- E in Hu. apply (Ha (select_result_a (parse_html env text))); [| exact Hu].
    intros tg Htg. unfold select_result_a in Htg. apply filter_In in Htg.
    destruct Htg as [Hin Hn]. apply andb_true_iff in Hn.
    split; [exact Hin | now apply String.eqb_eq].
Qed.

(** X6. With a positive limit, when some anchor of class [result__a]
    of the fetched page has an [href] beginning with "http", every
    returned URL is the [href] of an anchor of that class: the other
    anchors of the page are not scanned. *)
Theorem search_primary_selector_first :
  forall env query limit code text,
    (0 < limit)%Z ->
    requests_get env (search_url query) = Response code text ->
    status_is_error code = false ->
    existsb (fun tg => is_http_href (Tag.get tg "href"))
            (select_result_a (parse_html env text)) = true ->
    Forall (fun u => exists tg, In tg (parse_html env text)
                                /\ Tag.name tg = "a"
                                /\ In "result__a" (Tag.classes tg)
                                /\ Tag.get tg "href" = Some u)
           (_ddg_search_urls env query limit).
Proof.
  intros env query limit code text Hpos Hget Hok Hex.
  unfold _ddg_search_urls. rewrite Hget, Hok.
  apply Forall_forall. intros u Hu.
  unfold search_results in Hu. apply dedup_domains_origin in Hu.
  destruct Hu as [[] | Hu]. unfold page_links in Hu.
  pose proof (collect_links_nonempty limit (select_result_a (parse_html env text))
                Hpos [] (or_intror Hex)) as Hne.
  destruct (collect_links limit [] (select_result_a (parse_html env text))) eqn:E;
    [congruence |].
  rewrite <- E in Hu. apply collect_links_origin in Hu.
  destruct Hu as [[] | [_ [tg [Htg Hhref]]]].
  exists tg. unfold select_result_a in Htg. apply filter_In in Htg.
  destruct Htg as [Hin Hn]. apply andb_true_iff in Hn. destruct Hn as [Hn Hc].
  repeat split; auto; [now apply String.eqb_eq | now apply mem_true_iff].
Qed.

(** X7. Whatever the limit, also zero or negative, the search provider
    returns at most max(1, limit) URLs. *)
Theorem search_results_bound_any_limit :
  forall env query limit,
    (Z.of_nat (List.length (_ddg_search_urls env query limit)) <= Z.max 1 limit)%Z.
Proof.
  intros env query limit. unfold _ddg_search_urls.
  destruct (requests_get env (search_url query)) as [|code text]; [simpl; lia |].
  destruct (status_is_error code); [simpl; lia |].
  unfold search_results.
  pose proof (dedup_domains_length env limit
                (page_links (parse_html env text) limit) [] []) as H1.
  assert (H2 : (Z.of_nat (List.length (page_links (parse_html env text) limit))
                <= Z.max 1 limit)%Z).
  { unfold page_links.
    pose proof (collect_links_bound limit (select_result_a (parse_html env text)) [])
      as Ha.
    pose proof (collect_links_bound limit (find_all_a (parse_html env text)) []) as Hb.
    destruct (collect_links limit [] (select_result_a (parse_html env text)));
      [apply Hb | apply Ha]; simpl; lia. }
  simpl in H1. lia.
Qed.

(* ------------------------------------------------------------------ *)
(** ** Coordinator: growth of the store, shape of the new leads *)

Lemma extract_address (env : Env) (link : string) :
  Info.address (_extract_basic_page_info env link) = None.
Proof.
  destruct (info_before_fetch_fields link) as [_ [Ha _]].
  unfold _extract_basic_page_info.
  destruct (requests_get env link); [| rewrite fill_from_soup_address]; exact Ha.
Qed.

Lemma extract_website (env : Env) (link : string) :
  Info.website (_extract_basic_page_info env link)
  = if Py.contains "google." link then None else Some link.
Proof.
  unfold _extract_basic_page_info.
  destruct (requests_get env link); [| rewrite fill_from_soup_website];
    apply info_before_fetch_website.
Qed.

Lemma append_nonempty (a b : string) : b <> "" -> (a ++ b)%string <> "".
Proof. destruct a; simpl; [auto | discriminate]. Qed.

Lemma or_else_nonempty (o : option string) (d : string) :
  d <> "" -> Py.or_else o d <> "".
Proof.
  intros Hd. unfold Py.or_else. destruct o as [s|]; [| exact Hd].
  destruct s; simpl; [exact Hd | discriminate].
Qed.

Lemma draft_crawled_lead (env : Env) (city : string) (exams : list string) (link : string) :
  crawled_lead city exams (draft env city exams link (_extract_basic_page_info env link)).
Proof.
  unfold crawled_lead, draft; cbn [Coaching.status Coaching.city Coaching.exams
    Coaching.size Coaching.images Coaching.location Coaching.address Coaching.name
    Coaching.website].
  repeat split.
  - apply extract_address.
  - apply or_else_nonempty. unfold synth_name. apply append_nonempty. discriminate.
  - rewrite extract_website. destruct (Py.contains "google." link) eqn:E; [exact I | exact E].
Qed.

Section IngestFacts.

Variable env : Env.
Variable city : string.
Variable exams : list string.

(** What the loop leaves: the collection it found, followed by the new
    leads; their number is what it counted. *)
Lemma ingest_growth (links : list string) :
  forall c created seen,
  exists new,
    fst (ingest env city exams links c created seen) = c ++ new
    /\ Forall (fun p => crawled_lead city exams (snd p)) new
    /\ List.length new <= List.length links
    /\ match snd (ingest env city exams links c created seen) with
       | Return n => n = created + List.length new
       | Raise _ => True
       end.
Proof.
  induction links as [|link rest IH]; intros c created seen; cbn [ingest].
  - exists []. rewrite app_nil_r. simpl. repeat split; [constructor | lia | lia].
  - set (info := _extract_basic_page_info env link).
    set (doc := draft env city exams link info).
    assert (Hskip : forall seen',
      exists new,
        fst (ingest env city exams rest c created seen') = c ++ new
        /\ Forall (fun p => crawled_lead city exams (snd p)) new
        /\ List.length new <= List.length (link :: rest)
        /\ match snd (ingest env city exams rest c created seen') with
           | Return n => n = created + List.length new
           | Raise _ => True
           end).
    { intros seen'. destruct (IH c created seen') as [new [H1 [H2 [H3 H4]]]].
      exists new. simpl. repeat split; auto. }
    destruct (mem (dedup_key info link) seen); [apply Hskip |].
    destruct (lookup_existing env c doc city) as [[d|]|e]; [apply Hskip | |].
    + destruct (insert_rejected env doc); [apply Hskip |].
      destruct (IH (insert_one c doc) (S created) (dedup_key info link :: seen))
        as [new [H1 [H2 [H3 H4]]]].
      exists ((new_id c, doc) :: new). unfold insert_one in H1.
      rewrite <- app_assoc in H1. simpl in H1. simpl.
      repeat split; [exact H1 | | lia |].
      * constructor; [apply draft_crawled_lead | exact H2].
      * destruct (snd (ingest env city exams rest (insert_one c doc) (S created)
                         (dedup_key info link :: seen))); [lia | exact I].
    + exists []. rewrite app_nil_r. simpl. repeat split; [constructor | lia].
Qed.

End IngestFacts.

(** X8. A crawl on an available store leaves the records it found
    unchanged and in place, followed by the new ones, also when it ends
    with an exception; when it returns, [created] is the number of new
    records and is at most [scanned]. *)
Theorem crawl_store_growth :
  forall env c payload,
    exists new,
      fst (crawl_and_ingest env (Some c) payload) = Some (c ++ new)
      /\ match snd (crawl_and_ingest env (Some c) payload) with
         | Return r =>
             CrawlResponse.created r = List.length new
             /\ CrawlResponse.created r <= CrawlResponse.scanned r
             /\ CrawlResponse.ok r = true
         | Raise _ => True
         end.
Proof.
  intros env c payload. unfold crawl_and_ingest.
  destruct (negb (Py.truthy (Py.strip (CrawlRequest.city payload)))).
  - exists []. simpl. now rewrite app_nil_r.
  - match goal with
    | |- context [ingest env ?ci ?ex ?col c 0 []] =>
        destruct (ingest_growth env ci ex col c 0 []) as [new [H1 [_ [H3 H4]]]];
        destruct (ingest env ci ex col c 0 []) as [c' r]
    end.
    simpl in *. exists new. split; [now rewrite H1 |].
    destruct r as [n|e]; simpl; [| exact I]. subst n. simpl. repeat split. exact H3.
Qed.

(** X9. Every record a crawl adds has status "neutral", the stripped
    city of the request, its exams, no size, no image, no location, no
    address, a name that is not empty, and a website that is absent or
    free of "google.". *)
Theorem crawl_new_leads_shape :
  forall env c payload,
    exists new,
      fst (crawl_and_ingest env (Some c) payload) = Some (c ++ new)
      /\ Forall (crawled_lead (Py.strip (CrawlRequest.city payload))
                              (default [] (CrawlRequest.exams payload)))
                (docs new).
Proof.
  intros env c payload. unfold crawl_and_ingest.
  destruct (negb (Py.truthy (Py.strip (CrawlRequest.city payload)))).
  - exists []. simpl. split; [now rewrite app_nil_r | constructor].
  - change (match CrawlRequest.exams payload with Some l => l | None => [] end)
      with (default [] (CrawlRequest.exams payload)).
    match goal with
    | |- context [ingest env ?ci ?ex ?col c 0 []] =>
        destruct (ingest_growth env ci ex col c 0 []) as [new [H1 [H2 _]]];
        destruct (ingest env ci ex col c 0 []) as [c' r]
    end.
    simpl in *. exists new. split; [now rewrite H1 |].
    unfold docs. apply Forall_map. exact H2.
Qed.

(* ------------------------------------------------------------------ *)
(** ** Coordinator: websites stay pairwise distinct *)

Lemma websites_insert (c : Collection) (d : Coaching.t) :
  websites (insert_one c d)
  = websites c ++ match Coaching.website d with
                  | Some w => if Py.truthy w then [w] else []
                  | None => []
                  end.
Proof.
  unfold websites, insert_one, docs. rewrite map_app, flat_map_app. simpl.
  now rewrite app_nil_r.
Qed.

Lemma find_one_by_website_none (c : Collection) (w : string) :
  find_one_by_website c w = None -> ~ In w (websites c).
Proof.
  unfold find_one_by_website, websites. intros Hnone Hin.
  apply in_flat_map in Hin. destruct Hin as [d [Hd Hw]].
  pose proof (find_none _ _ Hnone d Hd) as Hf. cbv beta in Hf.
  destruct (Coaching.website d) as [w'|]; [| destruct Hw].
  destruct (Py.truthy w'); [| destruct Hw].
  destruct Hw as [-> | []]. rewrite String.eqb_refl in Hf. discriminate.
Qed.

Lemma lookup_none_website (env : Env) (c : Collection) (doc : Coaching.t) (city w : string) :
  lookup_existing env c doc city = Return None ->
  Coaching.website doc = Some w -> Py.truthy w = true ->
  find_one_by_website c w = None.
Proof.
  unfold lookup_existing. intros H Hw Ht. rewrite Hw, Ht in H.
  destruct (find_one_by_website c w); [discriminate | reflexivity].
Qed.

Lemma ingest_websites (env : Env) (city : string) (exams links : list string) :
  forall c created seen,
  NoDup (websites c) ->
  NoDup (websites (fst (ingest env city exams links c created seen))).
Proof.
  induction links as [|link rest IH]; intros c created seen Hc; cbn [ingest];
    [exact Hc |].
  set (info := _extract_basic_page_info env link).
  set (doc := draft env city exams link info).
  destruct (mem (dedup_key info link) seen); [now apply IH |].
  destruct (lookup_existing env c doc city) as [[d|]|e] eqn:Hl;
    [now apply IH | | exact Hc].
  destruct (insert_rejected env doc); [now apply IH |].
  apply IH. rewrite websites_insert.
  destruct (Coaching.website doc) as [w|] eqn:Hw; [| now rewrite app_nil_r].
  destruct (Py.truthy w) eqn:Ht; [| now rewrite app_nil_r].
  apply NoDup_app; [exact Hc | repeat constructor; intros [] |].
  intros x Hx [Heq | []]. subst x.
  exact (find_one_by_website_none c w (lookup_none_website env c doc city w Hl Hw Ht) Hx).
Qed.

(** X10. When the websites present in the store are pairwise distinct,
    they are still so after a crawl: a crawl never adds a record whose
    website the store already holds. *)
Theorem crawl_keeps_websites_distinct :
  forall env c payload,
    NoDup (websites c) ->
    match fst (crawl_and_ingest env (Some c) payload) with
    | Some c' => NoDup (websites c')
    | None => False
    end.
Proof.
  intros env c payload Hc. unfold crawl_and_ingest.
  destruct (negb (Py.truthy (Py.strip (CrawlRequest.city payload)))); [exact Hc |].
  match goal with
  | |- context [ingest env ?ci ?ex ?col c 0 []] =>
      pose proof (ingest_websites env ci ex col c 0 [] Hc) as H;
      destruct (ingest env ci ex col c 0 []) as [c' r]
  end.
  exact H.
Qed.

Lemma lstrip_blank (s : string) :
  forallb Py.is_space (list_ascii_of_string s) = true -> Py.lstrip s = "".
Proof.
  induction s as [|ch s IH]; simpl; [reflexivity |].
  intros H. apply andb_true_iff in H. destruct H as [-> H]. now apply IH.
Qed.

(** X14. A city made of white space only is refused with 400 "City is
    required" and the store is left as it was. *)
Theorem crawl_blank_city_refused :
  forall env c payload,
    forallb Py.is_space (list_ascii_of_string (CrawlRequest.city payload)) = true ->
    crawl_and_ingest env (Some c) payload
    = (Some c, Raise (HTTPException 400 "City is required")).
Proof.
  intros env c payload H. unfold crawl_and_ingest, Py.strip.
  rewrite (lstrip_blank _ H). reflexivity.
Qed.

(* ------------------------------------------------------------------ *)
(** ** Identifiers: [to_object_id] and the text of an [ObjectId] *)

Lemma string_length_append (a b : string) :
  String.length (a ++ b)%string = String.length a + String.length b.
Proof. induction a as [|c a IH]; simpl; [reflexivity | now rewrite IH]. Qed.

Lemma hex_digits_length (k : nat) (n : N) : String.length (hex_digits k n) = k.
Proof.
  revert n; induction k as [|k IH]; intros n; simpl; [reflexivity |].
  rewrite string_length_append, IH. simpl. lia.
Qed.

Lemma hex_val_bound (ch : ascii) (v : N) : hex_val ch = Some v -> (v < 16)%N.
Proof.
  unfold hex_val. set (n := nat_of_ascii ch).
  destruct ((48 <=? n) && (n <=? 57)) eqn:E1.
  { intros H; injection H as <-. apply andb_true_iff in E1.
    destruct E1 as [H1 H2]. apply Nat.leb_le in H1, H2. lia. }
  destruct ((97 <=? n) && (n <=? 102)) eqn:E2.
  { intros H; injection H as <-. apply andb_true_iff in E2.
    destruct E2 as [H1 H2]. apply Nat.leb_le in H1, H2. lia. }
  destruct ((65 <=? n) && (n <=? 70)) eqn:E3; [| discriminate].
  intros H; injection H as <-. apply andb_true_iff in E3.
  destruct E3 as [H1 H2]. apply Nat.leb_le in H1, H2. lia.
Qed.

Lemma hex_val_hex_char (d : N) : (d < 16)%N -> hex_val (hex_char d) = Some d.
Proof.
  intros H. destruct d as [|p]; [reflexivity |].
  do 4 (destruct p as [p|p|]; try reflexivity; try lia).
Qed.

Lemma parse_hex_app (s t : string) :
  forall acc,
  parse_hex acc (s ++ t)%string
  = match parse_hex acc s with
    | Some a => parse_hex a t
    | None => None
    end.
Proof.
  induction s as [|c s IH]; intros acc; simpl; [reflexivity |].
  destruct (hex_val c); [apply IH | reflexivity].
Qed.

Lemma parse_hex_digits (k : nat) :
  forall n acc,
  parse_hex acc (hex_digits k n)
  = Some (acc * 16 ^ N.of_nat k + n mod 16 ^ N.of_nat k)%N.
Proof.
  induction k as [|k IH]; intros n acc.
  - simpl. rewrite N.mod_1_r. f_equal. lia.
  - rewrite Nat2N.inj_succ, N.pow_succ_r'.
    rewrite (N.Div0.mod_mul_r n 16 (16 ^ N.of_nat k)).
    cbn [hex_digits]. rewrite parse_hex_app, IH. cbn [parse_hex].
    rewrite hex_val_hex_char by (apply N.mod_lt; lia). f_equal. lia.
Qed.

Lemma parse_hex_bound (s : string) :
  forall acc n,
  parse_hex acc s = Some n -> (n < (acc + 1) * 16 ^ N.of_nat (String.length s))%N.
Proof.
  induction s as [|c s IH]; intros acc n; cbn [parse_hex String.length].
  - intros H; injection H as <-. simpl. lia.
  - destruct (hex_val c) as [v|] eqn:Hv; [| discriminate].
    intros H. apply IH in H. apply hex_val_bound in Hv.
    rewrite Nat2N.inj_succ, N.pow_succ_r'.
    assert (Hp : (0 < 16 ^ N.of_nat (String.length s))%N)
      by (apply N.neq_0_lt_0, N.pow_nonzero; lia).
    nia.
Qed.

Lemma to_object_id_raises (id_str : string) (e : exn) :
  to_object_id id_str = Raise e -> e = HTTPException 400 "Invalid ID".
Proof.
  unfold to_object_id. destruct (String.length id_str =? 24).
  - destruct (parse_hex 0 id_str); [discriminate | congruence].
  - congruence.
Qed.

(** X22. [to_object_id] either returns an identifier below 16^24, for a
    text of 24 characters, or raises 400 "Invalid ID"; it reads back the
    text of every identifier below 16^24. *)
Theorem to_object_id_valid :
  (forall id_str,
      match to_object_id id_str with
      | Return oid => String.length id_str = 24 /\ (oid < 16 ^ 24)%N
      | Raise e => e = HTTPException 400 "Invalid ID"
      end)
  /\ (forall oid, (oid < 16 ^ 24)%N -> to_object_id (str_ObjectId oid) = Return oid).
Proof.
  split.
  - intros s. unfold to_object_id.
    destruct (String.length s =? 24) eqn:E; [| reflexivity].
    apply Nat.eqb_eq in E.
    destruct (parse_hex 0 s) as [n|] eqn:Hp; [| reflexivity].
    split; [exact E |].
    apply parse_hex_bound in Hp. rewrite E in Hp.
    change (N.of_nat 24) with 24%N in Hp. lia.
  - intros oid H. unfold to_object_id, str_ObjectId.
    rewrite hex_digits_length, Nat.eqb_refl, parse_hex_digits.
    change (N.of_nat 24) with 24%N. rewrite N.mod_small by exact H.
    f_equal.
Qed.

(* ------------------------------------------------------------------ *)
(** ** Lead endpoints: creation, look-up, status update *)

Lemma validate_Coaching_cases (b : CoachingBody.t) :
  match validate_Coaching b with
  | Return d =>
      CoachingBody.name b = Some (Coaching.name d)
      /\ CoachingBody.city b = Some (Coaching.city d)
      /\ Coaching.size d = CoachingBody.size b
      /\ match Coaching.size d with Some k => (0 <= k)%Z | None => True end
      /\ Coaching.status d = default "neutral" (CoachingBody.status b)
      /\ Coaching.exams d = default [] (CoachingBody.exams b)
      /\ Coaching.images d = default [] (CoachingBody.images b)
  | Raise e =>
      (CoachingBody.name b = None
       \/ CoachingBody.city b = None
       \/ exists k, CoachingBody.size b = Some k /\ (k < 0)%Z)
      /\ exists f, e = RequestValidationError f
  end.
Proof.
  unfold validate_Coaching.
  destruct (CoachingBody.name b) as [n|]; [| split; [auto | eauto]].
  destruct (CoachingBody.city b) as [c|]; [| split; [auto | eauto]].
  destruct (CoachingBody.size b) as [k|] eqn:Hs.
  - destruct (Z.ltb_spec k 0).
    + split; [right; right; eauto | eauto].
    + simpl. repeat split; auto.
  - simpl. repeat split; auto.
Qed.


Lemma find_one_by_id_In (c : Collection) (oid i : ObjectId) (d : Coaching.t) :
  find_one_by_id c oid = Some (i, d) -> i = oid /\ In (oid, d) c.
Proof.
  unfold find_one_by_id. intros H. apply find_some in H. destruct H as [Hin Heq].
  simpl in Heq. apply N.eqb_eq in Heq. subst i. auto.
Qed.

Lemma find_one_by_id_none (c : Collection) (oid : ObjectId) :
  find_one_by_id c oid = None <-> ~ In oid (map fst c).
Proof.
  unfold find_one_by_id. induction c as [|[i d] c IH]; simpl; [tauto |].
  destruct (N.eqb_spec i oid) as [-> | Hne].
  - split; [discriminate | intros H; exfalso; apply H; now left].
  - rewrite IH. split; [intros H [E | Hin]; auto | intros H Hin; apply H; now right].
Qed.

(** X23. [get_coaching] raises 400 for a malformed identifier before the
    store is touched, and on an available store raises 404 exactly when
    no record has the identifier; what it returns is a stored record
    under that identifier. *)
Theorem get_coaching_outcomes :
  forall db coaching_id,
    match to_object_id coaching_id with
    | Raise _ => get_coaching db coaching_id = Raise (HTTPException 400 "Invalid ID")
    | Return oid =>
        match db with
        | None => exists msg, get_coaching db coaching_id = Raise (TypeError msg)
        | Some c =>
            (get_coaching db coaching_id = Raise (HTTPException 404 "Not found")
             <-> ~ In oid (map fst c))
            /\ match get_coaching db coaching_id with
               | Return (i, d) => i = str_ObjectId oid /\ In (oid, d) c
               | Raise _ => True
               end
        end
    end.
Proof.
  intros db id. unfold get_coaching.
  pose proof (to_object_id_raises id) as Hv.
  destruct (to_object_id id) as [oid|e]; cbn [bind].
  - destruct db as [c|]; [| eauto].
    rewrite <- find_one_by_id_none.
    destruct (find_one_by_id c oid) as [[i d]|] eqn:Hf.
    + split; [split; discriminate |].
      apply find_one_by_id_In in Hf. destruct Hf as [-> Hin]. auto.
    + split; [tauto | exact I].
  - now rewrite (Hv e eq_refl).
Qed.

(** X16. A status other than liked, disliked, neutral is refused with
    400 "Invalid status" before anything else is looked at: whatever the
    identifier, and whether or not the store is available, the store is
    left as it was. *)
Theorem update_status_invalid_refused :
  forall db coaching_id status,
    ~ In status STATUSES ->
    update_status db coaching_id status
    = (db, Raise (HTTPException 400 "Invalid status")).
Proof.
  intros db id status H. unfold update_status.
  destruct (mem status ["liked"; "disliked"; "neutral"]) eqn:E; [| reflexivity].
  apply mem_true_iff in E. exfalso. apply H.
  unfold STATUSES. simpl in *. tauto.
Qed.






(** X18. When every stored status is one of neutral, liked, disliked,
    it is still so after any status update and after any crawl. *)
Theorem statuses_kept_by_update_and_crawl :
  forall env c,
    statuses_valid c ->
    (forall coaching_id status,
        match fst (update_status (Some c) coaching_id status) with
        | Some c' => statuses_valid c'
        | None => False
        end)
    /\ (forall payload,
          match fst (crawl_and_ingest env (Some c) payload) with
          | Some c' => statuses_valid c'
          | None => False
          end).
Proof.
  intros env c Hc. split.
  - intros id status. now apply update_status_valid.
  - intros payload. unfold crawl_and_ingest.
    destruct (negb (Py.truthy (Py.strip (CrawlRequest.city payload)))); [exact Hc |].
    match goal with
    | |- context [ingest env ?ci ?ex ?col c 0 []] =>
        pose proof (ingest_statuses_valid env ci ex col c 0 [] Hc) as H;
        destruct (ingest env ci ex col c 0 []) as [c' r]
    end.
    exact H.
Qed.

Lemma sizes_valid_app (c new : Collection) :
  sizes_valid c ->
  Forall (fun p => match Coaching.size (snd p) with
                   | Some n => (0 <= n)%Z
                   | None => True
                   end) new ->
  sizes_valid (c ++ new).
Proof.
  unfold sizes_valid, docs. intros Hc Hn. rewrite map_app.
  apply Forall_app; split; [exact Hc |]. now apply Forall_map.
Qed.

Lemma update_one_status_sizes (oid : ObjectId) (v : string) (c : Collection) :
  sizes_valid c -> sizes_valid (update_one_status oid v c).
Proof.
  unfold sizes_valid, docs. induction c as [|[i d] c IH]; simpl; [auto |].
  intros H. inversion_clear H as [|? ? Hd Hc].
  destruct (N.eqb i oid); simpl; constructor; auto.
Qed.

(** X19. When no stored size is negative, none is after a creation
    request, a status update or a crawl. *)
Theorem sizes_kept_nonnegative :
  forall env c,
    sizes_valid c ->
    (forall body, sizes_valid (fst (post_coaching c body)))
    /\ (forall coaching_id status,
          match fst (update_status (Some c) coaching_id status) with
          | Some c' => sizes_valid c'
          | None => False
          end)
    /\ (forall payload,
          match fst (crawl_and_ingest env (Some c) payload) with
          | Some c' => sizes_valid c'
          | None => False
          end).
Proof.
  intros env c Hc. split; [| split].
  - intros body. unfold post_coaching.
    pose proof (validate_Coaching_cases body) as H.
    destruct (validate_Coaching body) as [d|e]; simpl; [| exact Hc].
    apply sizes_valid_app; [exact Hc |]. constructor; [| constructor].
    simpl. tauto.
  - intros id status. unfold update_status.
    destruct (mem status _); simpl; [| exact Hc].
    destruct (to_object_id id); simpl; [| exact Hc].
    now apply update_one_status_sizes.
  - intros payload. unfold crawl_and_ingest.
    destruct (negb (Py.truthy (Py.strip (CrawlRequest.city payload)))); [exact Hc |].
    match goal with
    | |- context [ingest env ?ci ?ex ?col c 0 []] =>
        destruct (ingest_growth env ci ex col c 0 []) as [new [H1 [H2 _]]];
        destruct (ingest env ci ex col c 0 []) as [c' r]
    end.
    simpl in *. subst c'. apply sizes_valid_app; [exact Hc |].
    eapply Forall_impl; [| exact H2].
    intros p Hp. destruct Hp as [_ [_ [_ [Hsz _]]]]. now rewrite Hsz.
Qed.

Lemma find_one_by_id_fresh (c : Collection) (i : ObjectId) (d : Coaching.t) :
  ~ In i (map fst c) -> find_one_by_id (c ++ [(i, d)]) i = Some (i, d).
Proof.
  unfold find_one_by_id. induction c as [|[j e] c IH]; simpl.
  - intros _. now rewrite N.eqb_refl.
  - intros H. destruct (N.eqb_spec j i) as [-> | Hne]; [exfalso; apply H; now left |].
    apply IH. intros Hin. apply H. now right.
Qed.

(** X21. On a store whose identifiers are those assigned so far, and
    with fewer than 16^24 records, the record of an accepted creation
    request is returned by [get_coaching] under the text of the returned
    identifier; the identifiers of the new store are again those assigned
    so far. *)
Theorem post_then_get_coaching :
  forall c body i,
    ids_assigned c ->
    (N.of_nat (List.length c) < 16 ^ 24)%N ->
    snd (post_coaching c body) = Return i ->
    exists d,
      validate_Coaching body = Return d
      /\ get_coaching (Some (fst (post_coaching c body))) (str_ObjectId i)
         = Return (str_ObjectId i, d)
      /\ ids_assigned (fst (post_coaching c body)).
Proof.
  intros c body i Hids Hlen. unfold post_coaching.
  destruct (validate_Coaching body) as [d|e]; simpl; [| discriminate].
  intros H. injection H as <-. exists d. split; [reflexivity |].
  assert (Hfresh : ~ In (new_id c) (map fst c)).
  { intros Hin. apply Hids in Hin. unfold new_id in Hin. lia. }
  split.
  - unfold get_coaching.
    assert (Hid : to_object_id (str_ObjectId (new_id c)) = Return (new_id c)).
    { unfold to_object_id, str_ObjectId.
      rewrite hex_digits_length, Nat.eqb_refl, parse_hex_digits.
      change (N.of_nat 24) with 24%N. unfold new_id.
      rewrite N.mod_small by exact Hlen. reflexivity. }
    rewrite Hid. cbn [bind]. unfold insert_one.
    now rewrite find_one_by_id_fresh.
  - unfold ids_assigned, insert_one. intros j Hj.
    rewrite map_app, in_app_iff in Hj. rewrite length_app, Nat2N.inj_add.
    change (N.of_nat (List.length [(new_id c, d)])) with 1%N.
    destruct Hj as [Hj | [Hj | []]].
    + apply Hids in Hj. lia.
    + simpl in Hj. subst j. unfold new_id. lia.
Qed.

(* ------------------------------------------------------------------ *)
(** ** Notes *)

Lemma insert_desc_perm (x : NoteItem.t) (l : list NoteItem.t) :
  Permutation (insert_desc x l) (x :: l).
Proof.
  induction l as [|y l IH]; simpl; [apply Permutation_refl |].
  destruct (created_key y <=? created_key x)%Z; [apply Permutation_refl |].
  eapply Permutation_trans; [apply perm_skip, IH | apply perm_swap].
Qed.

Lemma sort_desc_perm (l : list NoteItem.t) : Permutation (sort_desc l) l.
Proof.
  induction l as [|x l IH]; simpl; [constructor |].
  eapply Permutation_trans; [apply insert_desc_perm | now apply perm_skip].
Qed.

Lemma insert_desc_sorted (x : NoteItem.t) (l : list NoteItem.t) :
  Sorted newer_first l -> Sorted newer_first (insert_desc x l).
Proof.
  induction l as [|y l IH]; simpl; intros H.
  - repeat constructor.
  - destruct (Z.leb_spec (created_key y) (created_key x)) as [Hle | Hlt].
    + constructor; [exact H |]. constructor. exact Hle.
    + inversion_clear H as [|? ? Hs Hr]. constructor; [now apply IH |].
      destruct l as [|z l]; simpl.
      * constructor. unfold newer_first. lia.
      * destruct (created_key z <=? created_key x)%Z.
        -- constructor. unfold newer_first. lia.
        -- constructor. now inversion_clear Hr.
Qed.

Lemma sort_desc_sorted (l : list NoteItem.t) : Sorted newer_first (sort_desc l).
Proof.
  induction l as [|x l IH]; simpl; [constructor | now apply insert_desc_sorted].
Qed.

(** X24. [list_notes] returns the stored notes of the given coaching,
    all of them and no other, each once, ordered by creation time with the
    newest first (a note without creation time counting as time 0). *)
Theorem list_notes_sorted_permutation :
  forall c coaching_id,
    Permutation (list_notes c coaching_id)
                (map note_item
                     (filter (fun s => String.eqb (Note.coaching_id (StoredNote.note s))
                                                  coaching_id) c))
    /\ Sorted (fun a b => (created_key b <= created_key a)%Z) (list_notes c coaching_id)
    /\ Forall (fun x => Note.coaching_id (NoteItem.note x) = coaching_id)
              (list_notes c coaching_id).
Proof.
  intros c id. unfold list_notes, get_note_documents.
  split; [apply sort_desc_perm |]. split; [apply sort_desc_sorted |].
  apply Forall_forall. intros x Hx.
  apply (Permutation_in _ (sort_desc_perm _)) in Hx.
  apply in_map_iff in Hx. destruct Hx as [s [<- Hs]].
  apply filter_In in Hs. destruct Hs as [_ Hs]. now apply String.eqb_eq.
Qed.

Lemma set_coaching_id_same (n : Note.t) :
  Note.set_coaching_id (Note.coaching_id n) n = n.
Proof. destruct n; reflexivity. Qed.

(** X25. A note added under a coaching identifier is listed for that
    identifier, with that identifier whatever the body said and with the
    other fields of the body; the lists of every other identifier are as
    before.  The identifier is any text: it is neither parsed nor looked
    up. *)
Theorem add_note_then_list_notes :
  forall c now coaching_id payload,
    let c' := fst (add_note c now coaching_id payload) in
    let i := snd (add_note c now coaching_id payload) in
    In (NoteItem.mk (str_ObjectId i) (Some now)
                    (Note.set_coaching_id coaching_id payload))
       (list_notes c' coaching_id)
    /\ List.length c' = S (List.length c)
    /\ (forall other, other <> coaching_id -> list_notes c' other = list_notes c other).
Proof.
  intros c now id payload c' i.
  assert (Hn : (if negb (String.eqb (Note.coaching_id payload) id)
                then Note.set_coaching_id id payload else payload)
               = Note.set_coaching_id id payload).
  { destruct (String.eqb_spec (Note.coaching_id payload) id) as [<- | Hne]; simpl;
      [now rewrite set_coaching_id_same | reflexivity]. }
  assert (Hc : c' = c ++ [StoredNote.mk i (Some now) (Note.set_coaching_id id payload)]).
  { unfold c', i, add_note, create_note_document. rewrite Hn. reflexivity. }
  split; [| split].
  - apply (Permutation_in _ (Permutation_sym (sort_desc_perm _))).
    unfold get_note_documents. rewrite Hc, filter_app, map_app. apply in_or_app. right.
    simpl. rewrite String.eqb_refl. now left.
  - rewrite Hc, length_app. simpl. lia.
  - intros other Hne. unfold list_notes, get_note_documents.
    rewrite Hc, filter_app. simpl.
    destruct (String.eqb_spec id other) as [-> | _]; [congruence |].
    now rewrite app_nil_r.
Qed.

(* ------------------------------------------------------------------ *)
(** ** Suggestions *)

(** X26. On an available store [coaching_agent] answers for exactly the
    identifiers [get_coaching] resolves: it raises 400 for a malformed
    one and 404 for an unknown one, and otherwise returns five
    suggestions, the third of which names the first five exams of the
    record joined by ", ", or "multiple exams" when that text is empty. *)
Theorem coaching_agent_outcomes :
  forall c coaching_id query,
    match get_coaching (Some c) coaching_id with
    | Return (_, d) =>
        exists r,
          coaching_agent (Some c) coaching_id query = Return r
          /\ List.length (AgentResponse.suggestions r) = 5
          /\ agent_exams d <> ""
          /\ nth_error (AgentResponse.suggestions r) 2
             = Some ("Look for photo galleries and infrastructure details if targeting "
                       ++ agent_exams d ++ ".")%string
          /\ (join ", " (firstn 5 (Coaching.exams d)) <> "" ->
              agent_exams d = join ", " (firstn 5 (Coaching.exams d)))
    | Raise (HTTPException code _) =>
        exists detail,
          coaching_agent (Some c) coaching_id query = Raise (HTTPException code detail)
          /\ (code = 400 \/ code = 404)%Z
    | Raise _ => False
    end.
Proof.
  intros c id query. unfold get_coaching, coaching_agent.
  pose proof (to_object_id_raises id) as Hv.
  destruct (to_object_id id) as [oid|e]; cbn [bind].
  - destruct (find_one_by_id c oid) as [[i d]|].
    + eexists. split; [reflexivity |]. cbn [AgentResponse.suggestions].
      split; [reflexivity |]. split; [| split; [reflexivity |]].
      * unfold agent_exams.
        destruct (join ", " (firstn 5 (Coaching.exams d))); simpl; discriminate.
      * unfold agent_exams.
        destruct (join ", " (firstn 5 (Coaching.exams d))); simpl; congruence.
    + eexists. split; [reflexivity | now right].
  - rewrite (Hv e eq_refl). eexists. split; [reflexivity | now left].
Qed.

(* ------------------------------------------------------------------ *)
(** ** Listing *)

Lemma split_on_single (sep : ascii) (x : string) :
  Regex.has_char sep x = false -> split_on sep x = [x].
Proof.
  induction x as [|a x IH]; [reflexivity |].
  rewrite has_char_cons. intros H. apply orb_false_iff in H. destruct H as [Ha Hx].
  cbn [split_on]. rewrite Ascii.eqb_sym, Ha, (IH Hx). reflexivity.
Qed.

Lemma split_on_sep (sep : ascii) (x t : string) :
  Regex.has_char sep x = false ->
  split_on sep (x ++ String sep t)%string = x :: split_on sep t.
Proof.
  induction x as [|a x IH]; intros H.
  - simpl. now rewrite Ascii.eqb_refl.
  - rewrite has_char_cons in H. apply orb_false_iff in H. destruct H as [Ha Hx].
    cbn [append split_on]. rewrite Ascii.eqb_sym, Ha, (IH Hx). reflexivity.
Qed.

Lemma split_on_join (l : list string) :
  l <> [] ->
  Forall (fun e => Regex.has_char "," e = false) l ->
  split_on "," (join "," l) = l.
Proof.
  induction l as [|x l IH]; intros Hne H; [congruence |].
  inversion_clear H as [|? ? Hx Hl].
  destruct l as [|y l]; [now apply split_on_single |].
  change (join "," (x :: y :: l)) with (x ++ String "," (join "," (y :: l)))%string.
  rewrite split_on_sep by exact Hx. f_equal. apply IH; [discriminate | exact Hl].
Qed.

Lemma truthy_nonempty (s : string) : s <> "" -> Py.truthy s = true.
Proof. destruct s; [congruence | reflexivity]. Qed.

(** X27. The exams of a listing request are the comma-separated pieces
    of the parameter, stripped, the blank ones dropped: none is empty and
    none has white space at either end.  A list of exam names that are
    not empty, stripped and free of commas, joined with commas, is read
    back unchanged. *)
Theorem parse_exams_clean_round_trip :
  (forall exams,
      Forall (fun e => e <> "" /\ Py.strip e = e) (parse_exams exams))
  /\ (forall l, Forall clean_exam l -> parse_exams (join "," l) = l).
Proof.
  split.
  - intros exams. unfold parse_exams. apply Forall_forall. intros e He.
    apply in_map_iff in He. destruct He as [e' [<- He']].
    apply filter_In in He'. destruct He' as [_ Ht].
    split; [| apply strip_idempotent].
    destruct (Py.strip e'); [discriminate | discriminate].
  - intros l Hl. unfold parse_exams.
    destruct l as [|x l]; [reflexivity |].
    rewrite split_on_join; [| discriminate |].
    + assert (Hf : filter (fun e => Py.truthy (Py.strip e)) (x :: l) = x :: l).
      { apply forallb_filter_id. apply forallb_forall. intros e He.
        rewrite Forall_forall in Hl. destruct (Hl e He) as [Hne [Hs _]].
        rewrite Hs. now apply truthy_nonempty. }
      rewrite Hf. rewrite <- (map_id (x :: l)) at 2. apply map_ext_in.
      intros e He. rewrite Forall_forall in Hl. now destruct (Hl e He) as [_ [Hs _]].
    + eapply Forall_impl; [| exact Hl]. intros e [_ [_ He]]. exact He.
Qed.

Section ListingFacts.

Variable env : Env.

Lemma compiles_ext (filt : Filter) (P Q : Coaching.t -> bool) :
  compiles env filt P -> (forall d, P d = Q d) -> compiles env filt Q.
Proof.
  intros [f [Hf Hp]] H. exists f. split; [exact Hf |].
  intros d. now rewrite Hp.
Qed.

Lemma compiles_snoc (filt : Filter) (cl : clause) (P Q : Coaching.t -> bool) :
  compiles env filt P ->
  (exists g, compile_clause env cl = Return g /\ forall d, g d = Q d) ->
  compiles env (filt ++ [cl]) (fun d => P d && Q d).
Proof.
  intros HP [g [Hg HQ]]. revert P HP.
  induction filt as [|a filt IH]; intros P [f [Hf Hp]];
    cbn [app compile_filter] in *.
  - injection Hf as <-. unfold compiles. cbn [compile_filter].
    rewrite Hg. cbn [bind]. eexists. split; [reflexivity |].
    intros d. cbv beta. rewrite HQ, <- Hp. now rewrite andb_true_r.
  - unfold compiles. cbn [compile_filter].
    destruct (compile_clause env a) as [fa|]; [| discriminate]. cbn [bind] in *.
    destruct (compile_filter env filt) as [ff|] eqn:Eff; [| discriminate].
    cbn [bind] in Hf. injection Hf as <-.
    assert (Hff : compiles env filt ff).
    { exists ff. split; [exact Eff | reflexivity]. }
    destruct (IH ff Hff) as [f' [Hf' Hp']].
    rewrite Hf'. cbn [bind]. eexists. split; [reflexivity |].
    intros d. cbv beta. rewrite Hp', <- Hp. now rewrite andb_assoc.
Qed.

Lemma compiles_with_city (p : ListQuery.t) (filt : Filter) (P : Coaching.t -> bool) :
  match ListQuery.city p with Some city => plain city = true | None => True end ->
  compiles env filt P ->
  compiles env (with_city p filt) (fun d => P d && city_criterion p d).
Proof.
  intros Hplain HP. unfold with_city, city_criterion.
  destruct (ListQuery.city p) as [city|].
  - destruct (Py.truthy city).
    + apply compiles_snoc; [exact HP |]. cbn [compile_clause compile_condition].
      rewrite (compile_plain _ _ Hplain). cbn [bind]. eexists. split; [reflexivity |].
      intros d. cbn. apply search_anchored_lit.
    + eapply compiles_ext; [exact HP |]. intros d. now rewrite andb_true_r.
  - eapply compiles_ext; [exact HP |]. intros d. now rewrite andb_true_r.
Qed.

Lemma compiles_with_status (p : ListQuery.t) (filt : Filter) (P : Coaching.t -> bool) :
  compiles env filt P ->
  compiles env (with_status p filt) (fun d => P d && status_criterion p d).
Proof.
  intros HP. unfold with_status, status_criterion.
  destruct (ListQuery.status p) as [status|].
  - destruct (Py.truthy status).
    + apply compiles_snoc; [exact HP |]. eexists. split; [reflexivity |].
      intros d. reflexivity.
    + eapply compiles_ext; [exact HP |]. intros d. now rewrite andb_true_r.
  - eapply compiles_ext; [exact HP |]. intros d. now rewrite andb_true_r.
Qed.

Lemma compiles_with_exams (p : ListQuery.t) (filt : Filter) (P : Coaching.t -> bool) :
  compiles env filt P ->
  compiles env (with_exams p filt) (fun d => P d && exams_criterion p d).
Proof.
  intros HP. unfold with_exams, exams_criterion.
  destruct (ListQuery.exams p) as [exams|].
  - destruct exams as [|a exams'] eqn:Ee.
    + eapply compiles_ext; [exact HP |]. intros d. now rewrite andb_true_r.
    + cbn [Py.truthy]. destruct (parse_exams (String a exams')) as [|e l].
      * eapply compiles_ext; [exact HP |]. intros d. now rewrite andb_true_r.
      * apply compiles_snoc; [exact HP |]. eexists. split; [reflexivity |].
        intros d. reflexivity.
  - eapply compiles_ext; [exact HP |]. intros d. now rewrite andb_true_r.
Qed.

Lemma compiles_with_size (p : ListQuery.t) (filt : Filter) (P : Coaching.t -> bool) :
  compiles env filt P ->
  compiles env (with_size p filt) (fun d => P d && size_criterion p d).
Proof.
  intros HP. unfold with_size, size_criterion.
  destruct (is_some (ListQuery.min_size p) || is_some (ListQuery.max_size p)).
  - apply compiles_snoc; [exact HP |]. eexists. split; [reflexivity |].
    intros d. reflexivity.
  - eapply compiles_ext; [exact HP |]. intros d. now rewrite andb_true_r.
Qed.

Lemma list_filter_without_q (p : ListQuery.t) :
  Py.truthy_opt (ListQuery.q p) = false ->
  list_filter p = with_size p (with_exams p (with_status p (with_city p []))).
Proof.
  intros Hq. unfold list_filter, with_size, with_exams, with_status, with_city.
  destruct (ListQuery.q p) as [q|]; [| reflexivity].
  simpl in Hq. now rewrite Hq.
Qed.

End ListingFacts.

(** X28. On a listing request without [q] whose city, if given, is
    plain, [list_coachings] does not raise and returns, in store order
    and each under the text of its identifier, exactly the records that
    meet every criterion given: the city up to case, the status exactly,
    all the exams listed, and a size present and within the inclusive
    bounds.  Empty parameters count as absent, a bound of 0 does not. *)
Theorem list_coachings_criteria :
  forall env c p,
    Py.truthy_opt (ListQuery.q p) = false ->
    match ListQuery.city p with Some city => plain city = true | None => True end ->
    list_coachings env c p
    = Return (map (fun x => (str_ObjectId (fst x), snd x))
                  (filter (fun x => listing_criteria p (snd x)) c)).
Proof.
  intros env c p Hq Hcity. unfold list_coachings, get_documents.
  rewrite (list_filter_without_q p Hq).
  assert (H0 : compiles env [] (fun _ => true)).
  { eexists. split; [reflexivity | reflexivity]. }
  pose proof (compiles_with_size env p _ _
                (compiles_with_exams env p _ _
                   (compiles_with_status env p _ _
                      (compiles_with_city env p _ _ Hcity H0)))) as [f [Hf Hp]].
  rewrite Hf. cbn [bind]. do 2 f_equal.
  apply filter_ext. intros x. rewrite Hp. unfold listing_criteria. reflexivity.
Qed.

(* ------------------------------------------------------------------ *)
(** ** Instances of the further properties *)

Lemma search_primary_selector_first_witness :
  let env := env_of_web other_unmatched web_two_domains in
  let query := "coaching institute Pune" in
  existsb (fun tg => is_http_href (Tag.get tg "href"))
          (select_result_a (parse_html env (search_url query))) = true
  /\ Forall (fun u => exists tg, In tg (parse_html env (search_url query))
                                 /\ Tag.name tg = "a"
                                 /\ In "result__a" (Tag.classes tg)
                                 /\ Tag.get tg "href" = Some u)
            (_ddg_search_urls env query 5).
Proof.
  intros env query. split; [reflexivity |].
  apply (search_primary_selector_first env query 5 200 (search_url query));
    reflexivity.
Defined.

Lemma store_apex_websites : NoDup (websites store_apex).
Proof. repeat constructor; simpl; tauto. Defined.

Lemma crawl_keeps_websites_distinct_witness :
  let env := env_of_web other_unmatched (web_aplus "https://aplusclasses.example.org/") in
  NoDup (websites store_apex)
  /\ match fst (crawl_and_ingest env (Some store_apex) crawl_delhi_1) with
     | Some c' => NoDup (websites c')
     | None => False
     end.
Proof.
  intros env. split; [exact store_apex_websites |].
  apply (crawl_keeps_websites_distinct env store_apex crawl_delhi_1).
  exact store_apex_websites.
Defined.

Lemma web_apex_names_plain :
  names_plain (env_of_web other_unmatched web_apex) "Delhi" []
    (fst (collect (_ddg_search_urls (env_of_web other_unmatched web_apex))
            "Delhi" [] 1)).
Proof.
  intros link Hin. vm_compute in Hin. destruct Hin as [<- | []]. reflexivity.
Defined.

Lemma crawl_twice_plain_witness :
  let env := env_of_web other_unmatched web_apex in
  let db1 := fst (crawl_and_ingest env (Some []) crawl_delhi_1) in
  db1 = Some [(0%N, lead_apex)]
  /\ crawl_and_ingest env db1 crawl_delhi_1
     = (db1, Return (CrawlResponse.mk true 0 1)).
Proof.
  intros env db1. split; [reflexivity |].
  apply (crawl_twice_plain env [] crawl_delhi_1);
    [reflexivity | reflexivity | exact web_apex_names_plain].
Defined.

Lemma lookup_existing_plain_iff_witness :
  let env := env_of_web other_unmatched [] in
  plain "Delhi" = true
  /\ plain (Coaching.name lead_apex) = true
  /\ exists r,
       lookup_existing env store_apex lead_apex "Delhi" = Return r /\
       (r <> None <->
        exists d, In d (docs store_apex) /\
          ((exists w, Coaching.website lead_apex = Some w /\ Py.truthy w = true
                      /\ Coaching.website d = Some w)
           \/ (caseless_match (Coaching.name lead_apex) (Coaching.name d) = true
               /\ caseless_match "Delhi" (Coaching.city d) = true))).
Proof.
  intros env. split; [reflexivity |]. split; [reflexivity |].
  apply (lookup_existing_plain_iff env "Delhi" eq_refl store_apex lead_apex eq_refl).
Defined.


Lemma crawl_blank_city_refused_witness :
  let env := env_of_web other_unmatched web_apex in
  forallb Py.is_space (list_ascii_of_string (CrawlRequest.city crawl_blank_city)) = true
  /\ crawl_and_ingest env (Some store_apex) crawl_blank_city
     = (Some store_apex, Raise (HTTPException 400 "City is required")).
Proof.
  intros env. split; [reflexivity |].
  apply (crawl_blank_city_refused env store_apex crawl_blank_city). reflexivity.
Defined.

Lemma synth_name_leading_only_witness :
  Py.contains "www." (strip_leading "www." "www.allen.ac.in") = false
  /\ synth_name "www.allen.ac.in" = synth_name_leading_www "www.allen.ac.in".
Proof.
  split; [reflexivity |].
  apply (synth_name_leading_only "www.allen.ac.in"). reflexivity.
Defined.

Lemma archived_not_a_status : ~ In "archived" STATUSES.
Proof. intros [H | [H | [H | []]]]; discriminate. Defined.

Lemma update_status_invalid_refused_witness :
  ~ In "archived" STATUSES
  /\ update_status (Some store_apex) "not an identifier" "archived"
     = (Some store_apex, Raise (HTTPException 400 "Invalid status")).
Proof.
  split; [exact archived_not_a_status |].
  apply (update_status_invalid_refused (Some store_apex) "not an identifier" "archived").
  exact archived_not_a_status.
Defined.


Lemma store_apex_statuses : statuses_valid store_apex.
Proof. constructor; [left; reflexivity | constructor]. Defined.

Lemma statuses_kept_by_update_and_crawl_witness :
  let env := env_of_web other_unmatched (web_aplus "https://aplusclasses.example.org/") in
  statuses_valid store_apex
  /\ match fst (update_status (Some store_apex) (str_ObjectId 0%N) "disliked") with
     | Some c' => statuses_valid c'
     | None => False
     end
  /\ match fst (crawl_and_ingest env (Some store_apex) crawl_delhi_1) with
     | Some c' => statuses_valid c'
     | None => False
     end.
Proof.
  intros env. split; [exact store_apex_statuses |].
  destruct (statuses_kept_by_update_and_crawl env store_apex store_apex_statuses)
    as [Hu Hc].
  split; [apply Hu | apply Hc].
Defined.

Lemma store_apex_sizes : sizes_valid store_apex.
Proof. constructor; [exact I | constructor]. Defined.

Lemma sizes_kept_nonnegative_witness :
  let env := env_of_web other_unmatched (web_aplus "https://aplusclasses.example.org/") in
  sizes_valid store_apex
  /\ sizes_valid (fst (post_coaching store_apex body_apex))
  /\ match fst (update_status (Some store_apex) (str_ObjectId 0%N) "liked") with
     | Some c' => sizes_valid c'
     | None => False
     end
  /\ match fst (crawl_and_ingest env (Some store_apex) crawl_delhi_1) with
     | Some c' => sizes_valid c'
     | None => False
     end.
Proof.
  intros env. split; [exact store_apex_sizes |].
  destruct (sizes_kept_nonnegative env store_apex store_apex_sizes) as [Hp [Hu Hc]].
  split; [apply Hp |]. split; [apply Hu | apply Hc].
Defined.

Lemma store_apex_ids : ids_assigned store_apex.
Proof. intros i [<- | []]. reflexivity. Defined.

Lemma post_then_get_coaching_witness :
  ids_assigned store_apex
  /\ (N.of_nat (List.length store_apex) < 16 ^ 24)%N
  /\ snd (post_coaching store_apex body_apex) = Return 1%N
  /\ exists d,
       validate_Coaching body_apex = Return d
       /\ get_coaching (Some (fst (post_coaching store_apex body_apex))) (str_ObjectId 1%N)
          = Return (str_ObjectId 1%N, d)
       /\ ids_assigned (fst (post_coaching store_apex body_apex)).
Proof.
  split; [exact store_apex_ids |]. split; [reflexivity |]. split; [reflexivity |].
  apply (post_then_get_coaching store_apex body_apex 1%N store_apex_ids);
    reflexivity.
Defined.

Lemma to_object_id_valid_witness :
  (255 < 16 ^ 24)%N
  /\ str_ObjectId 255%N = "0000000000000000000000ff"
  /\ to_object_id (str_ObjectId 255%N) = Return 255%N.
Proof.
  split; [reflexivity |]. split; [reflexivity |].
  apply (proj2 to_object_id_valid 255%N). reflexivity.
Defined.

Lemma two_exams_clean : Forall clean_exam ["NEET"; "IIT JEE"].
Proof.
  repeat constructor; try discriminate.
Defined.

Lemma parse_exams_clean_round_trip_witness :
  Forall clean_exam ["NEET"; "IIT JEE"]
  /\ join "," ["NEET"; "IIT JEE"] = "NEET,IIT JEE"
  /\ parse_exams (join "," ["NEET"; "IIT JEE"]) = ["NEET"; "IIT JEE"].
Proof.
  split; [exact two_exams_clean |]. split; [reflexivity |].
  apply (proj2 parse_exams_clean_round_trip ["NEET"; "IIT JEE"]).
  exact two_exams_clean.
Defined.

Lemma list_coachings_criteria_witness :
  let env := env_of_web other_unmatched [] in
  Py.truthy_opt (ListQuery.q query_delhi_neutral) = false
  /\ plain "delhi" = true
  /\ list_coachings env store_apex query_delhi_neutral
     = Return (map (fun x => (str_ObjectId (fst x), snd x))
                   (filter (fun x => listing_criteria query_delhi_neutral (snd x))
                           store_apex)).
Proof.
  intros env. split; [reflexivity |]. split; [reflexivity |].
  apply (list_coachings_criteria env store_apex query_delhi_neutral); reflexivity.
Defined.
